(** * The games REST resource ([server/routes/games.py])

    A shallow embedding of the five route handlers of the games blueprint
    ([get_games], [get_game], [create_game], [update_game], [delete_game])
    and of the collaborators they call: the request body as a JSON value
    with Python's truthiness, membership and subscript rules, the
    persistence session ([query], [add], [delete], [commit], [rollback]) as a
    state of two database snapshots, and the entity classes of the [models]
    package as a type class. *)

From stdpp Require Import gmap strings list fin_maps.
From Stdlib Require Import ZArith.

Set Warnings "-register-all".
Open Scope Z_scope.

(** ** JSON values as Python objects *)

(** What [request.get_json(silent=True)] hands to a handler: [JNull] is
    Python's [None] (also the result for an absent or unparsable body),
    [JObj] a [dict] with string keys.  Numbers are the integer literals. *)
Inductive json : Type :=
  | JNull
  | JBool (b : bool)
  | JInt (n : Z)
  | JStr (s : string)
  | JArr (l : list json)
  | JObj (m : gmap string json).

(** Exceptions a handler can meet.  [ValueError] carries [str(e)]. *)
Inductive exn : Type :=
  | ValueError (msg : string)
  | IntegrityError
  | TypeError
  | AttributeError
  | KeyError.

Inductive result (A : Type) : Type :=
  | Ok (a : A)
  | Raise (e : exn).
Arguments Ok {A} a.
Arguments Raise {A} e.

(** Python truth value of a decoded JSON value: [bool(data)]; a [dict], a
    [list] and a [str] are false exactly when their length is 0. *)
Definition truthy (data : json) : bool :=
  match data with
  | JNull => false
  | JBool b => b
  | JInt n => negb (n =? 0)
  | JStr s => negb (String.eqb s "")
  | JArr l => match l with [] => false | _ => true end
  | JObj m => negb (size m =? 0)%nat
  end.

(** [', '.join(fields)] *)
Definition join (sep : string) (fields : list string) : string :=
  String.concat sep fields.

(** [needle in hay] for two strings. *)
Fixpoint is_substring (needle hay : string) : bool :=
  String.prefix needle hay ||
  match hay with
  | EmptyString => false
  | String _ rest => is_substring needle rest
  end.

Definition is_str (field : string) (v : json) : bool :=
  match v with
  | JStr s => String.eqb s field
  | _ => false
  end.

(** [field in data]: key membership for a [dict], substring test for a
    [str], element equality for a [list]; the other values are not
    iterable. *)
Definition contains (field : string) (data : json) : result bool :=
  match data with
  | JObj m => Ok (match m !! field with Some _ => true | None => false end)
  | JStr s => Ok (is_substring field s)
  | JArr l => Ok (existsb (is_str field) l)
  | _ => Raise TypeError
  end.

(** [data[field]] with a string subscript: only a [dict] accepts it. *)
Definition getitem (field : string) (data : json) : result json :=
  match data with
  | JObj m => match m !! field with
              | Some v => Ok v
              | None => Raise KeyError
              end
  | _ => Raise TypeError
  end.

(** [data.get(field)]: [None] for an absent key, no such method on a
    value that is not a [dict]. *)
Definition get_or_none (field : string) (data : json) : result json :=
  match data with
  | JObj m => Ok (default JNull (m !! field))
  | _ => Raise AttributeError
  end.

(** ** Entities and the database *)

(** Modelled from the spec: the Game entity of the [models] package, with
    its columns title, description, star_rating, category_id and
    publisher_id; a column holds the Python value assigned to it.  The
    identifier is the key of the row in the games table. *)
Record Game : Type := mkGame {
  title : json;
  description : json;
  category_id : json;
  publisher_id : json;
  star_rating : json
}.

(** Modelled from the spec: the three tables behind [db], keyed by the
    integer primary key [id]; of a publisher or category the handlers only
    see the identifier and the name. *)
Record Database : Type := mkDatabase {
  games : gmap Z Game;
  publishers : gmap Z string;
  categories : gmap Z string
}.

Inductive Field : Type := Title | Description | CategoryId | PublisherId | StarRating.

(** Modelled from the spec: the entity definitions of the [models] package
    and the constraints of the database schema, which are not part of the
    routes module.  [validates f v] is the message of the value error the
    Game entity raises when attribute [f] is assigned [v] ([None]: the
    assignment is accepted and stores [v]); [integrity_ok old new] tells
    whether the database accepts the flush that takes the committed state
    [old] to [new] (otherwise the commit raises an integrity error). *)
Class Models : Type := {
  validates : Field -> json -> option string;
  integrity_ok : Database -> Database -> bool
}.

(** Modelled from the spec: the state of [db.session], the committed
    database and the transaction's view of it. *)
Record Session : Type := mkSession {
  stored : Database;
  working : Database
}.

(** ** The monad of a request: session state and exceptions *)

Definition M (A : Type) : Type := Session -> result A * Session.

Definition ret {A} (a : A) : M A := fun s => (Ok a, s).

Definition bind {A B} (m : M A) (k : A -> M B) : M B :=
  fun s => match m s with
           | (Ok a, s') => k a s'
           | (Raise e, s') => (Raise e, s')
           end.

Definition lift {A} (r : result A) : M A := fun s => (r, s).

(** [try: body except ...]: [handler e] is the matching [except] clause,
    [None] when the exception propagates. *)
Definition try_except {A} (body : M A) (handler : exn -> option (M A)) : M A :=
  fun s => match body s with
           | (Ok a, s') => (Ok a, s')
           | (Raise e, s') => match handler e with
                              | Some h => h s'
                              | None => (Raise e, s')
                              end
           end.

Notation "'let!' x ':=' m 'in' k" := (bind m (fun x => k))
  (at level 10, x pattern, m at level 100, k at level 200).

(** ** The persistence session *)

(** Modelled from the spec: [Column.id == value] in a filter or join; a
    primary key equals a value of the request when that value is the same
    integer. *)
Definition key_eq (k : Z) (v : json) : bool :=
  match v with
  | JInt n => k =? n
  | _ => false
  end.

(** Modelled from the spec: the identifier the games table gives to a new
    row, one past the largest in use. *)
Definition fresh_id (t : gmap Z Game) : Z :=
  1 + foldr Z.max 0 (map_to_list t).*1.

Section Routes.
Context {models : Models}.

(** Modelled from the spec: the persistence session providing query, add,
    delete, commit and rollback, which the routes module imports as
    [db.session].  [query(T)] reads the rows of a table of the
    transaction's view. *)
Definition query {A} (table : Database -> gmap Z A) : M (list (Z * A)) :=
  fun s => (Ok (map_to_list (table (working s))), s).

(** [.first()]: the first row of a query, or [None]. *)
Definition first {A} (rows : list A) : option A := head rows.

Definition set_games (t : gmap Z Game) (d : Database) : Database :=
  {| games := t; publishers := publishers d; categories := categories d |}.

(** Modelled from the spec: [db.session.add(game)] puts the new game in
    the transaction's view; the game is paired with the identifier it
    carries once flushed. *)
Definition session_add (game : Game) : M (Z * Game) :=
  fun s =>
    let id := fresh_id (games (working s)) in
    (Ok (id, game),
     {| stored := stored s;
        working := set_games (<[id := game]> (games (working s))) (working s) |}).

(** Modelled from the spec: [db.session.delete(game)] removes the row
    from the transaction's view. *)
Definition session_delete (game : Z * Game) : M unit :=
  fun s =>
    (Ok tt,
     {| stored := stored s;
        working := set_games (delete game.1 (games (working s))) (working s) |}).

(** Modelled from the spec: [db.session.commit()] makes the transaction's
    view the committed state, or raises an integrity error when the
    database rejects it. *)
Definition commit : M unit :=
  fun s =>
    if integrity_ok (stored s) (working s)
    then (Ok tt, {| stored := working s; working := working s |})
    else (Raise IntegrityError, s).

(** Modelled from the spec: [db.session.rollback()] discards the
    transaction's view. *)
Definition rollback : M unit :=
  fun s => (Ok tt, {| stored := stored s; working := stored s |}).

(** Modelled from the spec: assigning an attribute of a Game runs its
    validator, which may raise a value error. *)
Definition validated (f : Field) (v : json) : result json :=
  match validates f v with
  | Some msg => Raise (ValueError msg)
  | None => Ok v
  end.

Definition set_field (f : Field) (v : json) (g : Game) : Game :=
  match f with
  | Title => mkGame v (description g) (category_id g) (publisher_id g) (star_rating g)
  | Description => mkGame (title g) v (category_id g) (publisher_id g) (star_rating g)
  | CategoryId => mkGame (title g) (description g) v (publisher_id g) (star_rating g)
  | PublisherId => mkGame (title g) (description g) (category_id g) v (star_rating g)
  | StarRating => mkGame (title g) (description g) (category_id g) (publisher_id g) v
  end.

(** Modelled from the spec: the constructor [Game(title=..., ...)], which
    assigns its keyword arguments in the order they are written. *)
Definition Game_init (t d c p r : json) : result Game :=
  match validated Title t with
  | Raise e => Raise e
  | Ok t =>
  match validated Description d with
  | Raise e => Raise e
  | Ok d =>
  match validated CategoryId c with
  | Raise e => Raise e
  | Ok c =>
  match validated PublisherId p with
  | Raise e => Raise e
  | Ok p =>
  match validated StarRating r with
  | Raise e => Raise e
  | Ok r => Ok (mkGame t d c p r)
  end end end end end.

(** Modelled from the spec: [game.f = v] on a game the session tracks;
    the validated value is written to the object and to the transaction's
    view. *)
Definition setattr (game : Z * Game) (f : Field) (v : json) : M (Z * Game) :=
  let! v := lift (validated f v) in
  fun s =>
    let g := set_field f v game.2 in
    (Ok (game.1, g),
     {| stored := stored s;
        working := set_games (<[game.1 := g]> (games (working s))) (working s) |}).

(** Modelled from the spec: the related row of a foreign key as the
    serialization shows it, null when there is none. *)
Definition related (table : gmap Z string) (key : json) : json :=
  match first (List.filter (fun r => key_eq r.1 key) (map_to_list table)) with
  | Some (id, name) => JObj {[ "id" := JInt id; "name" := JStr name ]}
  | None => JNull
  end.

(** Modelled from the spec: the serialization method of the Game entity,
    producing a JSON-compatible mapping of the game's identifier and
    columns, with the joined publisher and category rendered as null when
    absent. *)
Definition serialize (db : Database) (game : Z * Game) : json :=
  JObj {[ "id" := JInt game.1;
          "title" := title game.2;
          "description" := description game.2;
          "star_rating" := star_rating game.2;
          "category_id" := category_id game.2;
          "publisher_id" := publisher_id game.2;
          "publisher" := related (publishers db) (publisher_id game.2);
          "category" := related (categories db) (category_id game.2) ]}.

(** Modelled from the spec: [game.to_dict()], reading the related rows
    through the session. *)
Definition to_dict (game : Z * Game) : M json :=
  fun s => (Ok (serialize (working s) game), s).

(** ** Responses *)

(** What a handler returns: [(jsonify(body), status)], with status 200
    when the handler names none. *)
Record Response : Type := mkResponse {
  body : json;
  status : Z
}.

(** [jsonify(v)]: the response body is the JSON text of [v]. *)
Definition jsonify (v : json) : json := v.

(** [{"error": msg}] *)
Definition error (msg : string) : json := JObj {[ "error" := JStr msg ]}.

(** ** The routes *)

(** [isouter=True]: every left row is kept, paired with each matching right
    row or once with no row. *)
Definition outer_join {A B} (on : A -> B -> bool) (l : list A) (r : list B)
  : list (A * option B) :=
  flat_map (fun a => match List.filter (on a) r with
                     | [] => [(a, None)]
                     | ms => map (fun b => (a, Some b)) ms
                     end) l.

(** The games left-joined with their publisher and category; the query
    yields Game entities. *)
Definition get_games_base_query : M (list (Z * Game)) :=
  let! game := query games in
  let! publisher := query publishers in
  let! category := query categories in
  let rows :=
    outer_join (fun gp c => key_eq c.1 (category_id gp.1.2))
               (outer_join (fun g p => key_eq p.1 (publisher_id g.2)) game publisher)
               category in
  ret (map (fun row => row.1.1) rows).

(** [[game.to_dict() for game in games_query]] *)
Fixpoint to_dicts (games_query : list (Z * Game)) : M (list json) :=
  match games_query with
  | [] => ret []
  | game :: rest =>
      let! d := to_dict game in
      let! ds := to_dicts rest in
      ret (d :: ds)
  end.

(** [GET /api/games] *)
Definition get_games : M Response :=
  let! games_query := get_games_base_query in
  let! games_list := to_dicts games_query in
  ret (mkResponse (jsonify (JArr games_list)) 200).

(** [GET /api/games/<int:id>] *)
Definition get_game (id : Z) : M Response :=
  let! rows := get_games_base_query in
  let game_query := first (List.filter (fun g => g.1 =? id) rows) in
  match game_query with
  | None => ret (mkResponse (jsonify (error "Game not found")) 404)
  | Some game_query =>
      let! game := to_dict game_query in
      ret (mkResponse (jsonify game) 200)
  end.

(** [required_fields = ['title', 'description', 'category_id', 'publisher_id']] *)
Definition required_fields : list string :=
  ["title"; "description"; "category_id"; "publisher_id"].

(** [[field for field in fields if field not in data]] *)
Fixpoint missing_in (data : json) (fields : list string) : result (list string) :=
  match fields with
  | [] => Ok []
  | field :: rest =>
      match contains field data with
      | Raise e => Raise e
      | Ok present =>
          match missing_in data rest with
          | Raise e => Raise e
          | Ok l => Ok (if present then l else field :: l)
          end
      end
  end.

(** The two [except] clauses shared by [create_game] and [update_game]. *)
Definition on_error (e : exn) : option (M Response) :=
  match e with
  | ValueError msg =>
      Some (let! _ := rollback in ret (mkResponse (jsonify (error msg)) 400))
  | IntegrityError =>
      Some (let! _ := rollback in
            ret (mkResponse (jsonify (error "Database integrity error")) 400))
  | _ => None
  end.

(** The [try] block of [create_game]. *)
Definition create_game_try (data : json) : M Response :=
  let! t := lift (getitem "title" data) in
  let! d := lift (getitem "description" data) in
  let! c := lift (getitem "category_id" data) in
  let! p := lift (getitem "publisher_id" data) in
  let! r := lift (get_or_none "star_rating" data) in
  let! game := lift (Game_init t d c p r) in
  let! game := session_add game in
  let! _ := commit in
  let! created := to_dict game in
  ret (mkResponse (jsonify created) 201).

(** [POST /api/games]; [data] is [request.get_json(silent=True)]. *)
Definition create_game (data : json) : M Response :=
  if negb (truthy data)
  then ret (mkResponse (jsonify (error "Request body must be JSON")) 400)
  else
  let! missing_fields := lift (missing_in data required_fields) in
  match missing_fields with
  | _ :: _ =>
      ret (mkResponse
             (jsonify (error ("Missing required fields: " ++ join ", " missing_fields)))
             400)
  | [] =>
  let! category_id := lift (getitem "category_id" data) in
  let! rows := query categories in
  match first (List.filter (fun c => key_eq c.1 category_id) rows) with
  | None => ret (mkResponse (jsonify (error "Category not found")) 400)
  | Some category =>
  let! publisher_id := lift (getitem "publisher_id" data) in
  let! rows := query publishers in
  match first (List.filter (fun p => key_eq p.1 publisher_id) rows) with
  | None => ret (mkResponse (jsonify (error "Publisher not found")) 400)
  | Some publisher => try_except (create_game_try data) on_error
  end
  end
  end.

(** [if key in data: game.f = data[key]] *)
Definition assign_if_present (key : string) (f : Field) (data : json)
    (game : Z * Game) : M (Z * Game) :=
  let! present := lift (contains key data) in
  if (present : bool)
  then let! v := lift (getitem key data) in setattr game f v
  else ret game.

(** The assignments of the [try] block of [update_game]. *)
Definition update_fields (game : Z * Game) (data : json) : M (Z * Game) :=
  let! game := assign_if_present "title" Title data game in
  let! game := assign_if_present "description" Description data game in
  let! game := assign_if_present "category_id" CategoryId data game in
  let! game := assign_if_present "publisher_id" PublisherId data game in
  assign_if_present "star_rating" StarRating data game.

(** The [try] block of [update_game]. *)
Definition update_game_try (game : Z * Game) (data : json) : M Response :=
  let! game := update_fields game data in
  let! _ := commit in
  let! updated := to_dict game in
  ret (mkResponse (jsonify updated) 200).

(** [if key in data: row = query(...).filter(id == data[key]).first()];
    the answer is whether the handler goes on ([false]: the row was looked
    for and not found). *)
Definition reference_ok (key : string) (table : Database -> gmap Z string)
    (data : json) : M bool :=
  let! present := lift (contains key data) in
  if (present : bool)
  then
    let! v := lift (getitem key data) in
    let! rows := query table in
    match first (List.filter (fun r => key_eq r.1 v) rows) with
    | None => ret false
    | Some _ => ret true
    end
  else ret true.

(** [PUT /api/games/<int:id>] *)
Definition update_game (id : Z) (data : json) : M Response :=
  let! rows := query games in
  match first (List.filter (fun g => g.1 =? id) rows) with
  | None => ret (mkResponse (jsonify (error "Game not found")) 404)
  | Some game =>
  if negb (truthy data)
  then ret (mkResponse (jsonify (error "Request body must be JSON")) 400)
  else
  let! category := reference_ok "category_id" categories data in
  if negb category
  then ret (mkResponse (jsonify (error "Category not found")) 400)
  else
  let! publisher := reference_ok "publisher_id" publishers data in
  if negb publisher
  then ret (mkResponse (jsonify (error "Publisher not found")) 400)
  else try_except (update_game_try game data) on_error
  end.

(** The [except] clause of [delete_game]. *)
Definition on_delete_error (e : exn) : option (M Response) :=
  match e with
  | IntegrityError =>
      Some (let! _ := rollback in
            ret (mkResponse (jsonify (error "Database integrity error")) 400))
  | _ => None
  end.

(** The [try] block of [delete_game]. *)
Definition delete_game_try (game : Z * Game) : M Response :=
  let! _ := session_delete game in
  let! _ := commit in
  ret (mkResponse (jsonify (JObj ∅)) 204).

(** [DELETE /api/games/<int:id>] *)
Definition delete_game (id : Z) : M Response :=
  let! rows := query games in
  match first (List.filter (fun g => g.1 =? id) rows) with
  | None => ret (mkResponse (jsonify (error "Game not found")) 404)
  | Some game => try_except (delete_game_try game) on_delete_error
  end.

(** ** Serving a request *)

(** A request starts a session on the committed database and runs the
    handler; when the request ends the session is removed, so what remains
    is the committed database and the handler's response (or the exception
    it did not catch). *)
Definition begin (db : Database) : Session :=
  {| stored := db; working := db |}.

Definition serve (handler : M Response) (db : Database)
  : result Response * Database :=
  let '(r, s) := handler (begin db) in (r, stored s).

End Routes.

(** ** Vocabulary of the properties *)

(** The database once game [id] is written, and once it is removed. *)
Definition with_game (id : Z) (g : Game) (db : Database) : Database :=
  set_games (<[id := g]> (games db)) db.

Definition without (id : Z) (db : Database) : Database :=
  set_games (delete id (games db)) db.

(** A foreign-key value references a row of the table. *)
Definition references (table : gmap Z string) (key : json) : Prop :=
  exists id name, key = JInt id /\ table !! id = Some name.

(** A foreign key resolves: it is not set, or it references a row. *)
Definition resolves (table : gmap Z string) (key : json) : Prop :=
  key = JNull \/ references table key.

Definition referential_integrity (db : Database) : Prop :=
  forall id g, games db !! id = Some g ->
    resolves (categories db) (category_id g) /\
    resolves (publishers db) (publisher_id g).

(** What an operation taking [db] to [db'] wrote: the reference tables are
    untouched, and each foreign key of each game of [db'] references a row
    or is the one that game had in [db]. *)
Definition kept_or_references (db : Database) (table : Database -> gmap Z string)
    (column : Game -> json) (id : Z) (g' : Game) : Prop :=
  references (table db) (column g') \/
  exists g, games db !! id = Some g /\ column g = column g'.

Definition writes_resolve (db db' : Database) : Prop :=
  categories db' = categories db /\
  publishers db' = publishers db /\
  forall id g', games db' !! id = Some g' ->
    kept_or_references db categories category_id id g' /\
    kept_or_references db publishers publisher_id id g'.

(** A computation that leaves the committed database alone. *)
Definition keeps_stored {A} (m : M A) : Prop :=
  forall s, stored (m s).2 = stored s.

(** The invariant of a session that started on [db], and the computations
    that maintain it and establish [post] on the value they return. *)
Definition session_inv (db : Database) (s : Session) : Prop :=
  writes_resolve db (stored s) /\ writes_resolve db (working s).

Definition preserves {A} (db : Database) (m : M A) (post : A -> Prop) : Prop :=
  forall s, session_inv db s ->
    session_inv db (m s).2 /\ forall a, (m s).1 = Ok a -> post a.

(** A game object whose foreign keys may be written back. *)
Definition game_ok (db : Database) (game : Z * Game) : Prop :=
  kept_or_references db categories category_id game.1 game.2 /\
  kept_or_references db publishers publisher_id game.1 game.2.


(** The required fields a [dict] body lacks. *)
Definition absent (m : gmap string json) (field : string) : bool :=
  match m !! field with
  | Some _ => false
  | None => true
  end.

(** The value a body supplies for a key: the entry of a [dict], nothing
    for any other body. *)
Definition supplied (key : string) (data : json) : option json :=
  match data with
  | JObj m => m !! key
  | _ => None
  end.

(** A game with the field replaced when the body supplies it, and with
    each of the five fields so replaced. *)
Definition patch (key : string) (f : Field) (data : json) (g : Game) : Game :=
  match supplied key data with
  | Some v => set_field f v g
  | None => g
  end.

Definition patched (data : json) (g : Game) : Game :=
  patch "star_rating" StarRating data
    (patch "publisher_id" PublisherId data
       (patch "category_id" CategoryId data
          (patch "description" Description data
             (patch "title" Title data g)))).

(** A session of a request on [db] in which only the game object [game],
    of identifier [id], has been written to. *)
Definition tracked (db : Database) (id : Z) (game : Z * Game) (s : Session) : Prop :=
  game.1 = id /\ stored s = db /\ working s = with_game id game.2 db.

(** A body that is not a [dict]. *)
Definition not_dict (data : json) : Prop := forall m, data <> JObj m.

(** ** A sample of the [models] package

    Titles are strings (or null) and a title string has at least two
    characters; the title column is NOT NULL. *)
Definition sample_validates (f : Field) (v : json) : option string :=
  match f, v with
  | Title, JStr s =>
      if (String.length s <? 2)%nat
      then Some "Game title must be at least 2 characters"
      else None
  | Title, JNull => None
  | Title, _ => Some "Game title must be a string"
  | _, _ => None
  end.

Definition title_not_null (g : Game) : bool :=
  match title g with
  | JNull => false
  | _ => true
  end.

Definition sample_integrity_ok (old new : Database) : bool :=
  forallb (fun r => title_not_null r.2) (map_to_list (games new)).

Definition sample_models : Models :=
  {| validates := sample_validates; integrity_ok := sample_integrity_ok |}.

(** Another sample: no validator, and a schema in which other tables
    reference every game, so that no stored game may disappear. *)
Definition referenced_integrity_ok (old new : Database) : bool :=
  forallb (fun r => match games new !! r.1 with Some _ => true | None => false end)
          (map_to_list (games old)).

Definition referenced_models : Models :=
  {| validates := fun _ _ => None; integrity_ok := referenced_integrity_ok |}.

Definition sample_game : Game :=
  mkGame (JStr "Pipeline Panic") (JStr "Build your DevOps pipeline")
         (JInt 1) (JInt 2) (JInt 4).

Definition sample_db : Database :=
  {| games := {[ 1 := sample_game ]};
     publishers := {[ 2 := "DevGames" ]};
     categories := {[ 1 := "Strategy" ]} |}.

Definition sample_fields : gmap string json :=
  {[ "title" := JStr "Agile Adventures";
     "description" := JStr "Navigate your team through sprints";
     "category_id" := JInt 1;
     "publisher_id" := JInt 2 ]}.

Definition sample_body : json := JObj sample_fields.

Definition sample_created : Game :=
  mkGame (JStr "Agile Adventures") (JStr "Navigate your team through sprints")
         (JInt 1) (JInt 2) JNull.

(** * Properties *)

(** ** Queries on a table *)

Section Tables.
Context {A : Type}.

Lemma filter_key_absent (l : list (Z * A)) (id : Z) :
  (forall a, (id, a) ∉ l) ->
  List.filter (fun r => r.1 =? id) l = [].
Proof.
  induction l as [|[k a] l IH]; intros Hno; [reflexivity|].
  cbn. destruct (Z.eqb_spec k id) as [->|Hne].
  - exfalso. apply (Hno a). left.
  - apply IH. intros b Hb. apply (Hno b). right. exact Hb.
Qed.

Lemma filter_key_present (l : list (Z * A)) (id : Z) (a : A) :
  NoDup l.*1 -> (id, a) ∈ l ->
  List.filter (fun r => r.1 =? id) l = [(id, a)].
Proof.
  induction l as [|[k b] l IH]; intros Hnd Hin.
  - inversion Hin.
  - cbn in Hnd. apply NoDup_cons in Hnd as [Hk Hnd].
    cbn. destruct (Z.eqb_spec k id) as [->|Hne].
    + assert (forall c, (id, c) ∉ l) as Hno.
      { intros c Hc. apply Hk. apply list_elem_of_fmap. exists (id, c). done. }
      rewrite (filter_key_absent l id Hno).
      apply elem_of_cons in Hin as [Heq|Hin]; [congruence|].
      exfalso. exact (Hno a Hin).
    + apply elem_of_cons in Hin as [Heq|Hin]; [congruence|].
      apply IH; assumption.
Qed.

(** [query(T).filter(T.id == id).first()] is the row of key [id]. *)
Lemma first_by_id (t : gmap Z A) (id : Z) :
  first (List.filter (fun r => r.1 =? id) (map_to_list t)) =
  (fun a => (id, a)) <$> t !! id.
Proof.
  destruct (t !! id) as [a|] eqn:E; cbn.
  - rewrite (filter_key_present _ id a); [reflexivity| |].
    + apply NoDup_fst_map_to_list.
    + apply elem_of_map_to_list. exact E.
  - rewrite filter_key_absent; [reflexivity|].
    intros a Ha. apply elem_of_map_to_list in Ha. congruence.
Qed.

Lemma filter_none (l : list (Z * A)) :
  List.filter (fun _ : Z * A => false) l = [].
Proof. induction l; [reflexivity | assumption]. Qed.

(** The same query with a value of the request as the key. *)
Lemma first_by_key (t : gmap Z A) (v : json) :
  first (List.filter (fun r => key_eq r.1 v) (map_to_list t)) =
  match v with
  | JInt n => (fun a => (n, a)) <$> t !! n
  | _ => None
  end.
Proof.
  destruct v; cbn [key_eq]; try (rewrite filter_none; reflexivity).
  apply first_by_id.
Qed.

End Tables.

(** ** The joined base query *)

Lemma first_filter_map {A B} (f : A -> B) (P : B -> bool) (l : list A) :
  first (List.filter P (map f l)) =
  f <$> first (List.filter (fun a => P (f a)) l).
Proof.
  induction l as [|a l IH]; [reflexivity|].
  cbn. destruct (P (f a)); [reflexivity | exact IH].
Qed.

Lemma flat_map_first {A C} (f : A -> list C) (proj : C -> A) (P : A -> bool)
    (l : list A) :
  (forall a, exists n, map proj (f a) = a :: replicate n a) ->
  first (List.filter P (map proj (flat_map f l))) = first (List.filter P l).
Proof.
  intros Hblock.
  induction l as [|a l IH]; [reflexivity|].
  cbn [flat_map]. rewrite map_app, List.filter_app.
  destruct (Hblock a) as [n ->]. cbn [List.filter].
  destruct (P a) eqn:HP; [reflexivity|].
  assert (List.filter P (replicate n a) = []) as ->.
  { clear -HP. induction n as [|n IHn]; [reflexivity|]. cbn. rewrite HP. exact IHn. }
  exact IH.
Qed.

Lemma outer_join_first {A B} (on : A -> B -> bool) (P : A -> bool)
    (l : list A) (r : list B) :
  first (List.filter P (map fst (outer_join on l r))) = first (List.filter P l).
Proof.
  unfold outer_join. apply flat_map_first.
  intros a. destruct (List.filter (on a) r) as [|b ms].
  - exists 0%nat. reflexivity.
  - exists (length ms). cbn. f_equal.
    induction ms as [|c ms IHms]; [reflexivity|]. cbn. f_equal. exact IHms.
Qed.

(** The base query yields game rows; the first one of a given id is that
    game, whatever its publisher and category columns hold. *)
Lemma base_query_first (s : Session) (id : Z) :
  exists rows,
    get_games_base_query s = (Ok rows, s) /\
    first (List.filter (fun g => g.1 =? id) rows) =
    (fun g => (id, g)) <$> games (working s) !! id.
Proof.
  eexists. split; [reflexivity|].
  rewrite <- first_by_id.
  rewrite <- (map_map fst fst).
  rewrite first_filter_map, outer_join_first.
  rewrite <- (first_filter_map fst (fun g : Z * Game => g.1 =? id)).
  apply outer_join_first.
Qed.

(** ** Fresh identifiers *)

Lemma le_foldr_max (l : list Z) (k : Z) : k ∈ l -> k <= foldr Z.max 0 l.
Proof.
  induction l as [|x l IH]; intros Hin; [inversion Hin|].
  cbn. apply elem_of_cons in Hin as [->|Hin]; [lia|].
  specialize (IH Hin). lia.
Qed.

Lemma fresh_id_fresh (t : gmap Z Game) : t !! fresh_id t = None.
Proof.
  destruct (t !! fresh_id t) as [g|] eqn:E; [|reflexivity].
  exfalso.
  assert (fresh_id t ∈ (map_to_list t).*1) as Hin.
  { apply list_elem_of_fmap. exists (fresh_id t, g). split; [reflexivity|].
    apply elem_of_map_to_list. exact E. }
  apply le_foldr_max in Hin. unfold fresh_id in Hin at 1. lia.
Qed.

(** ** Reading one game *)

Lemma get_game_run (s : Session) (id : Z) :
  get_game id s =
  (Ok match games (working s) !! id with
      | None => mkResponse (error "Game not found") 404
      | Some g => mkResponse (serialize (working s) (id, g)) 200
      end, s).
Proof.
  destruct (base_query_first s id) as (rows & Hq & Hfirst).
  unfold get_game, bind. rewrite Hq, Hfirst.
  destruct (games (working s) !! id); reflexivity.
Qed.

(** C5: a GET of one game answers 404 with the body
    [{"error": "Game not found"}] when no game has that id, and 200 with the
    serialized game when one has. *)
Theorem get_game_found_or_404 (db : Database) (id : Z) :
  (games db !! id = None ->
   serve (get_game id) db =
   (Ok (mkResponse (JObj {[ "error" := JStr "Game not found" ]}) 404), db)) /\
  (forall g, games db !! id = Some g ->
   serve (get_game id) db = (Ok (mkResponse (serialize db (id, g)) 200), db)).
Proof.
  unfold serve. rewrite get_game_run. cbn [begin working stored].
  split.
  - intros ->. reflexivity.
  - intros g ->. reflexivity.
Qed.

Lemma get_game_found_or_404_witness :
  serve (get_game 3) sample_db =
  (Ok (mkResponse (JObj {[ "error" := JStr "Game not found" ]}) 404), sample_db) /\
  serve (get_game 1) sample_db =
  (Ok (mkResponse (serialize sample_db (1, sample_game)) 200), sample_db).
Proof.
  split.
  - apply (proj1 (get_game_found_or_404 sample_db 3)). reflexivity.
  - apply (proj2 (get_game_found_or_404 sample_db 1) sample_game). reflexivity.
Defined.

Section Properties.
Context {models : Models}.

(** ** Deleting a game *)

Lemma delete_game_run (s : Session) (id : Z) :
  delete_game id s =
  match games (working s) !! id with
  | None => (Ok (mkResponse (error "Game not found") 404), s)
  | Some g =>
      if integrity_ok (stored s) (without id (working s))
      then (Ok (mkResponse (JObj ∅) 204),
            mkSession (without id (working s)) (without id (working s)))
      else (Ok (mkResponse (error "Database integrity error") 400),
            mkSession (stored s) (stored s))
  end.
Proof.
  unfold delete_game, bind at 1, query. rewrite first_by_id.
  destruct (games (working s) !! id) as [g|]; [|reflexivity].
  cbn [fmap option_fmap option_map].
  unfold try_except, delete_game_try, bind, session_delete, commit, without.
  cbn [fst snd stored working].
  destruct (integrity_ok _ _); reflexivity.
Qed.

(** C8: deleting an existing game whose removal the database accepts
    removes it and answers 204 with the empty mapping of [jsonify({})];
    deleting an id that no game has answers 404. *)
Theorem delete_game_removes (db : Database) (id : Z) :
  (forall g, games db !! id = Some g ->
   integrity_ok db (without id db) = true ->
   serve (delete_game id) db = (Ok (mkResponse (JObj ∅) 204), without id db) /\
   games (without id db) !! id = None /\
   (forall id', id' <> id -> games (without id db) !! id' = games db !! id')) /\
  (games db !! id = None ->
   exists r, serve (delete_game id) db = (Ok r, db) /\ status r = 404).
Proof.
  unfold serve. rewrite delete_game_run. cbn [begin working stored].
  split.
  - intros g -> ->. cbn [stored]. split; [reflexivity|].
    split.
    + apply lookup_delete_eq.
    + intros id' Hne. apply lookup_delete_ne. congruence.
  - intros ->. eexists. split; reflexivity.
Qed.

(** C9: after a DELETE answered 204, a GET of the same id answers 404. *)
Theorem delete_then_get_404 (db db' : Database) (id : Z) (r : Response) :
  serve (delete_game id) db = (Ok r, db') ->
  status r = 204 ->
  serve (get_game id) db' =
  (Ok (mkResponse (JObj {[ "error" := JStr "Game not found" ]}) 404), db').
Proof.
  unfold serve. rewrite delete_game_run, get_game_run. cbn [begin working stored].
  destruct (games db !! id) as [g|].
  - destruct (integrity_ok _ _); intros [= <- <-]; cbn [status]; [intros _|discriminate].
    unfold without. cbn [set_games games]. rewrite lookup_delete_eq. reflexivity.
  - intros [= <- <-]. cbn [status]. discriminate.
Qed.

(** ** Rejected bodies *)

(** C10: a POST, or a PUT on an existing game, whose decoded body is falsy
    (the empty object, null, false, 0, the empty string or list) answers
    400 with [{"error": "Request body must be JSON"}] and changes nothing. *)
Theorem falsy_body_rejected (db : Database) (id : Z) (data : json) :
  truthy data = false ->
  serve (create_game data) db =
  (Ok (mkResponse (JObj {[ "error" := JStr "Request body must be JSON" ]}) 400), db) /\
  (is_Some (games db !! id) ->
   serve (update_game id data) db =
   (Ok (mkResponse (JObj {[ "error" := JStr "Request body must be JSON" ]}) 400), db)).
Proof.
  intros Hfalsy. unfold serve. split.
  - unfold create_game. rewrite Hfalsy. reflexivity.
  - intros [g Hg].
    unfold update_game, bind, query. rewrite first_by_id.
    cbn [begin working]. rewrite Hg. cbn [fmap option_fmap option_map].
    rewrite Hfalsy. reflexivity.
Qed.

(** ** Creating a game *)

Lemma missing_in_dict (m : gmap string json) (fields : list string) :
  missing_in (JObj m) fields = Ok (List.filter (absent m) fields).
Proof.
  induction fields as [|f fields IH]; [reflexivity|].
  cbn [missing_in contains List.filter]. rewrite IH. unfold absent.
  destruct (m !! f); reflexivity.
Qed.


Lemma truthy_dict_lookup (m : gmap string json) (k : string) (v : json) :
  m !! k = Some v -> truthy (JObj m) = true.
Proof.
  intros Hk. cbn [truthy].
  destruct (Nat.eqb_spec (size m) 0) as [E|E]; [|reflexivity].
  apply map_size_empty_iff in E. subst m. rewrite lookup_empty in Hk. discriminate.
Qed.




Lemma first_by_key_references (t : gmap Z string) (v : json) :
  references t v ->
  exists row, first (List.filter (fun r => key_eq r.1 v) (map_to_list t)) = Some row.
Proof.
  intros (id & name & -> & Hid). rewrite first_by_key, Hid. eexists. reflexivity.
Qed.

Lemma first_by_key_dangling (t : gmap Z string) (v : json) :
  ~ references t v ->
  first (List.filter (fun r => key_eq r.1 v) (map_to_list t)) = None.
Proof.
  intros Hno. rewrite first_by_key. destruct v; try reflexivity.
  destruct (t !! n) as [name|] eqn:E; [|reflexivity].
  exfalso. apply Hno. exists n, name. done.
Qed.

Lemma first_by_key_found (t : gmap Z string) (v : json) (row : Z * string) :
  first (List.filter (fun r => key_eq r.1 v) (map_to_list t)) = Some row ->
  references t v.
Proof.
  rewrite first_by_key. destruct v; try discriminate.
  destruct (t !! n) as [name|] eqn:E; [|discriminate].
  intros _. exists n, name. done.
Qed.

Lemma Game_init_ok (t d c p r : json) (g : Game) :
  Game_init t d c p r = Ok g -> g = mkGame t d c p r.
Proof.
  unfold Game_init, validated.
  repeat (destruct (validates _ _); [discriminate|]).
  intros [= <-]. reflexivity.
Qed.

Lemma Game_init_raises (t d c p r : json) (e : exn) :
  Game_init t d c p r = Raise e -> exists msg, e = ValueError msg.
Proof.
  unfold Game_init, validated.
  repeat (destruct (validates _ _) as [msg|]; [intros [= <-]; eexists; reflexivity|]).
  discriminate.
Qed.

Section CreateDict.
Variables (m : gmap string json) (t d c p : json).
Hypothesis Ht : m !! "title" = Some t.
Hypothesis Hd : m !! "description" = Some d.
Hypothesis Hc : m !! "category_id" = Some c.
Hypothesis Hp : m !! "publisher_id" = Some p.

(** With the four required fields present, the handler reaches its two
    existence checks and then its [try] block. *)
Lemma create_game_checks (s : Session) :
  create_game (JObj m) s =
  match first (List.filter (fun r => key_eq r.1 c) (map_to_list (categories (working s)))) with
  | None => (Ok (mkResponse (error "Category not found") 400), s)
  | Some _ =>
      match first (List.filter (fun r => key_eq r.1 p) (map_to_list (publishers (working s)))) with
      | None => (Ok (mkResponse (error "Publisher not found") 400), s)
      | Some _ => try_except (create_game_try (JObj m)) on_error s
      end
  end.
Proof.
  unfold create_game. rewrite (truthy_dict_lookup m _ _ Ht). cbn [negb].
  unfold bind at 1, lift at 1. rewrite missing_in_dict.
  unfold required_fields, absent. cbn [List.filter]. rewrite Ht, Hd, Hc, Hp.
  unfold bind, lift, query, getitem. rewrite Hc, Hp.
  destruct (first _) as [?|]; [|reflexivity].
  destruct (first _) as [?|]; reflexivity.
Qed.

Lemma create_game_try_run (s : Session) :
  create_game_try (JObj m) s =
  match Game_init t d c p (default JNull (m !! "star_rating")) with
  | Raise e => (Raise e, s)
  | Ok g =>
      let id := fresh_id (games (working s)) in
      let w := with_game id g (working s) in
      if integrity_ok (stored s) w
      then (Ok (mkResponse (serialize w (id, g)) 201), mkSession w w)
      else (Raise IntegrityError, mkSession (stored s) w)
  end.
Proof.
  unfold create_game_try, bind, lift, getitem, get_or_none.
  rewrite Ht, Hd, Hc, Hp.
  destruct (Game_init _ _ _ _ _) as [g|e]; [|reflexivity].
  unfold session_add, commit, with_game. cbn [stored working].
  destruct (integrity_ok _ _); reflexivity.
Qed.

End CreateDict.

(** C1: a POST whose body holds title, description, category_id and
    publisher_id, the two keys referencing existing rows, and for which
    neither the construction of the game nor the commit raises, stores the
    new game under a fresh id beside the games already there and answers
    201 with a body whose category_id and publisher_id are those of the
    request. *)
Theorem create_game_created (db : Database) (m : gmap string json)
    (t d c p : json) (g : Game) :
  m !! "title" = Some t ->
  m !! "description" = Some d ->
  m !! "category_id" = Some c ->
  m !! "publisher_id" = Some p ->
  references (categories db) c ->
  references (publishers db) p ->
  Game_init t d c p (default JNull (m !! "star_rating")) = Ok g ->
  integrity_ok db (with_game (fresh_id (games db)) g db) = true ->
  exists (id : Z) (created : gmap string json),
    serve (create_game (JObj m)) db =
    (Ok (mkResponse (JObj created) 201), with_game id g db) /\
    games db !! id = None /\
    games (with_game id g db) !! id = Some g /\
    category_id g = c /\ publisher_id g = p /\
    created !! "category_id" = Some c /\
    created !! "publisher_id" = Some p.
Proof.
  intros Ht Hd Hc Hp Hcat Hpub Hinit Hcommit.
  apply first_by_key_references in Hcat as [crow Hcat].
  apply first_by_key_references in Hpub as [prow Hpub].
  eexists (fresh_id (games db)), _.
  split; [|split; [|split; [|split; [|split; [|split]]]]].
  - unfold serve. rewrite (create_game_checks m t d c p Ht Hd Hc Hp).
    cbn [begin working]. rewrite Hcat, Hpub.
    unfold try_except. rewrite (create_game_try_run m t d c p Ht Hd Hc Hp).
    rewrite Hinit. cbv beta iota zeta. cbn [begin stored working].
    rewrite Hcommit. unfold serialize. reflexivity.
  - apply fresh_id_fresh.
  - unfold with_game. cbn [set_games games]. apply lookup_insert_eq.
  - apply Game_init_ok in Hinit. subst g. reflexivity.
  - apply Game_init_ok in Hinit. subst g. reflexivity.
  - apply Game_init_ok in Hinit. subst g. cbn [category_id snd].
    repeat (rewrite lookup_insert_ne by discriminate).
    apply lookup_insert_eq.
  - apply Game_init_ok in Hinit. subst g. cbn [publisher_id snd].
    repeat (rewrite lookup_insert_ne by discriminate).
    apply lookup_insert_eq.
Qed.

(** C4, as amended: a POST whose body holds the four required fields and
    whose category_id references no category row answers 400 with
    [{"error": "Category not found"}] and leaves the database as it was. *)
Theorem create_game_unknown_category (db : Database) (m : gmap string json)
    (t d c p : json) :
  m !! "title" = Some t ->
  m !! "description" = Some d ->
  m !! "category_id" = Some c ->
  m !! "publisher_id" = Some p ->
  ~ references (categories db) c ->
  serve (create_game (JObj m)) db =
  (Ok (mkResponse (JObj {[ "error" := JStr "Category not found" ]}) 400), db).
Proof.
  intros Ht Hd Hc Hp Hcat.
  unfold serve. rewrite (create_game_checks m t d c p Ht Hd Hc Hp).
  cbn [begin working]. rewrite (first_by_key_dangling _ _ Hcat). reflexivity.
Qed.


(** ** Updating a game *)

(** A body that supplies only star_rating: the outcome of the PUT. *)
Lemma update_star_rating_run (db : Database) (id : Z) (g : Game) (v : json) :
  games db !! id = Some g ->
  update_game id (JObj {[ "star_rating" := v ]}) (begin db) =
  match validates StarRating v with
  | Some msg => (Ok (mkResponse (error msg) 400), begin db)
  | None =>
      let w := with_game id (set_field StarRating v g) db in
      if integrity_ok db w
      then (Ok (mkResponse (serialize w (id, set_field StarRating v g)) 200),
            mkSession w w)
      else (Ok (mkResponse (error "Database integrity error") 400), begin db)
  end.
Proof.
  intros Hg.
  unfold update_game, bind at 1, query. rewrite first_by_id.
  cbn [begin working]. rewrite Hg. cbn [fmap option_fmap option_map].
  rewrite (truthy_dict_lookup _ "star_rating" v) by apply lookup_singleton_eq.
  cbn [negb].
  unfold reference_ok, bind, lift, contains.
  rewrite !lookup_singleton_ne by discriminate.
  unfold ret. cbn [negb].
  unfold try_except, update_game_try, update_fields, assign_if_present.
  unfold bind, lift, contains, getitem, ret.
  rewrite !lookup_singleton_ne by discriminate.
  rewrite lookup_singleton_eq.
  unfold setattr, bind, lift, validated.
  destruct (validates StarRating v) as [msg|]; [reflexivity|].
  unfold commit, with_game. cbn [stored working fst snd].
  destruct (integrity_ok _ _); reflexivity.
Qed.

(** C2: a PUT on an existing game whose body supplies only star_rating
    leaves the game's title, description, category_id and publisher_id as
    they were, and leaves every other row as it was. *)
Theorem update_star_rating_only (db : Database) (id : Z) (g : Game) (v : json) :
  games db !! id = Some g ->
  exists (r : Response) (db' : Database) (g' : Game),
    serve (update_game id (JObj {[ "star_rating" := v ]})) db = (Ok r, db') /\
    games db' !! id = Some g' /\
    title g' = title g /\
    description g' = description g /\
    category_id g' = category_id g /\
    publisher_id g' = publisher_id g /\
    (forall id', id' <> id -> games db' !! id' = games db !! id') /\
    categories db' = categories db /\
    publishers db' = publishers db.
Proof.
  intros Hg. unfold serve. rewrite (update_star_rating_run db id g v Hg).
  destruct (validates StarRating v) as [msg|].
  - exists (mkResponse (error msg) 400), db, g. cbn [begin stored]. done.
  - cbv zeta. destruct (integrity_ok _ _).
    + eexists _, _, (set_field StarRating v g). cbn [stored].
      split; [reflexivity|].
      unfold with_game. cbn [set_games games categories publishers].
      rewrite lookup_insert_eq.
      repeat (split; [reflexivity|]).
      split; [|done].
      intros id' Hne. apply lookup_insert_ne. congruence.
    + eexists _, db, g. cbn [begin stored]. done.
Qed.


(** ** Errors roll the transaction back *)

Lemma keeps_stored_ret {A} (a : A) : keeps_stored (ret a).
Proof. intros s. reflexivity. Qed.

Lemma keeps_stored_lift {A} (r : result A) : keeps_stored (lift r).
Proof. intros s. reflexivity. Qed.

Lemma keeps_stored_bind {A B} (m : M A) (k : A -> M B) :
  keeps_stored m -> (forall a, keeps_stored (k a)) -> keeps_stored (bind m k).
Proof.
  intros Hm Hk s. unfold bind. specialize (Hm s).
  destruct (m s) as [[a|e] s1]; cbn [snd] in *.
  - rewrite Hk. exact Hm.
  - exact Hm.
Qed.

Lemma keeps_stored_setattr (game : Z * Game) (f : Field) (v : json) :
  keeps_stored (setattr game f v).
Proof.
  unfold setattr. apply keeps_stored_bind; [apply keeps_stored_lift|].
  intros a s. reflexivity.
Qed.

Lemma keeps_stored_assign (key : string) (f : Field) (data : json)
    (game : Z * Game) :
  keeps_stored (assign_if_present key f data game).
Proof.
  unfold assign_if_present.
  apply keeps_stored_bind; [apply keeps_stored_lift|].
  intros [|]; [|apply keeps_stored_ret].
  apply keeps_stored_bind; [apply keeps_stored_lift|].
  intros v. apply keeps_stored_setattr.
Qed.

Lemma keeps_stored_update_fields (game : Z * Game) (data : json) :
  keeps_stored (update_fields game data).
Proof.
  unfold update_fields.
  repeat (apply keeps_stored_bind; [apply keeps_stored_assign|]; intros ?).
  apply keeps_stored_assign.
Qed.

(** Past its checks, [update_game] is its [try] block under the two
    [except] clauses. *)
Lemma update_game_checks (db : Database) (id : Z) (g : Game) (data : json) :
  games db !! id = Some g ->
  truthy data = true ->
  reference_ok "category_id" categories data (begin db) = (Ok true, begin db) ->
  reference_ok "publisher_id" publishers data (begin db) = (Ok true, begin db) ->
  update_game id data (begin db) =
  try_except (update_game_try (id, g) data) on_error (begin db).
Proof.
  intros Hg Htruthy Hcat Hpub.
  unfold update_game, bind at 1, query. rewrite first_by_id.
  cbn [begin working]. rewrite Hg. cbn [fmap option_fmap option_map].
  rewrite Htruthy. cbn [negb].
  unfold bind at 1. fold (begin db). rewrite Hcat. cbn [negb].
  unfold bind at 1. rewrite Hpub. reflexivity.
Qed.

(** C6: when the construction of the game (POST) or an assignment to it
    (PUT) raises a value error, the handler answers 400 with that error's
    message; when the commit raises an integrity error, it answers 400 with
    "Database integrity error"; either way the session it leaves is rolled
    back onto the database the request started from. *)
Theorem errors_roll_back (db : Database) :
  (forall (m : gmap string json) (t d c p : json),
     m !! "title" = Some t ->
     m !! "description" = Some d ->
     m !! "category_id" = Some c ->
     m !! "publisher_id" = Some p ->
     references (categories db) c ->
     references (publishers db) p ->
     (forall msg,
        Game_init t d c p (default JNull (m !! "star_rating")) = Raise (ValueError msg) ->
        create_game (JObj m) (begin db) =
        (Ok (mkResponse (JObj {[ "error" := JStr msg ]}) 400), begin db)) /\
     (forall g,
        Game_init t d c p (default JNull (m !! "star_rating")) = Ok g ->
        integrity_ok db (with_game (fresh_id (games db)) g db) = false ->
        create_game (JObj m) (begin db) =
        (Ok (mkResponse (JObj {[ "error" := JStr "Database integrity error" ]}) 400),
         begin db))) /\
  (forall (id : Z) (g : Game) (data : json),
     games db !! id = Some g ->
     truthy data = true ->
     reference_ok "category_id" categories data (begin db) = (Ok true, begin db) ->
     reference_ok "publisher_id" publishers data (begin db) = (Ok true, begin db) ->
     (forall msg s1,
        update_fields (id, g) data (begin db) = (Raise (ValueError msg), s1) ->
        update_game id data (begin db) =
        (Ok (mkResponse (JObj {[ "error" := JStr msg ]}) 400), begin db)) /\
     (forall game s1,
        update_fields (id, g) data (begin db) = (Ok game, s1) ->
        integrity_ok (stored s1) (working s1) = false ->
        update_game id data (begin db) =
        (Ok (mkResponse (JObj {[ "error" := JStr "Database integrity error" ]}) 400),
         begin db))).
Proof.
  split.
  - intros m t d c p Ht Hd Hc Hp Hcat Hpub.
    apply first_by_key_references in Hcat as [crow Hcat].
    apply first_by_key_references in Hpub as [prow Hpub].
    rewrite (create_game_checks m t d c p Ht Hd Hc Hp).
    cbn [begin working]. rewrite Hcat, Hpub.
    unfold try_except. rewrite (create_game_try_run m t d c p Ht Hd Hc Hp).
    split.
    + intros msg ->. reflexivity.
    + intros g -> Hcommit. cbv beta iota zeta. cbn [begin stored working].
      rewrite Hcommit. reflexivity.
  - intros id g data Hg Htruthy Hcat Hpub.
    rewrite (update_game_checks db id g data Hg Htruthy Hcat Hpub).
    unfold try_except, update_game_try.
    split.
    + intros msg s1 Hfields.
      pose proof (keeps_stored_update_fields (id, g) data (begin db)) as Hkept.
      rewrite Hfields in Hkept. cbn [snd begin stored] in Hkept.
      unfold bind at 1. rewrite Hfields.
      cbn [on_error]. unfold bind, rollback, ret. rewrite Hkept. reflexivity.
    + intros game s1 Hfields Hcommit.
      pose proof (keeps_stored_update_fields (id, g) data (begin db)) as Hkept.
      rewrite Hfields in Hkept. cbn [snd begin stored] in Hkept.
      unfold bind at 1. rewrite Hfields.
      unfold bind at 1, commit. rewrite Hcommit.
      cbn [on_error]. unfold bind, rollback, ret. rewrite Hkept. reflexivity.
Qed.


(** ** Referential integrity *)

Section Invariant.
Variable db : Database.

Lemma writes_resolve_refl : writes_resolve db db.
Proof.
  split; [reflexivity|]. split; [reflexivity|].
  intros id g Hg. split; right; exists g; done.
Qed.

Lemma session_inv_begin : session_inv db (begin db).
Proof. split; apply writes_resolve_refl. Qed.

Lemma writes_resolve_with_game (w : Database) (game : Z * Game) :
  writes_resolve db w -> game_ok db game ->
  writes_resolve db (with_game game.1 game.2 w).
Proof.
  intros (Hc & Hp & Hgames) Hok.
  split; [exact Hc|]. split; [exact Hp|].
  intros id g'. unfold with_game. cbn [set_games games].
  rewrite lookup_insert_Some. intros [[<- <-]|[_ Hold]].
  - exact Hok.
  - apply Hgames. exact Hold.
Qed.

Lemma writes_resolve_integrity (db' : Database) :
  referential_integrity db -> writes_resolve db db' ->
  referential_integrity db'.
Proof.
  intros Hri (Hc & Hp & Hgames) id g' Hg'.
  destruct (Hgames id g' Hg') as [Hcat Hpub].
  rewrite Hc, Hp. split.
  - destruct Hcat as [Href|(g & Hg & <-)]; [right; exact Href|].
    apply (Hri id g Hg).
  - destruct Hpub as [Href|(g & Hg & <-)]; [right; exact Href|].
    apply (Hri id g Hg).
Qed.

Lemma preserves_ret {A} (a : A) (post : A -> Prop) :
  post a -> preserves db (ret a) post.
Proof. intros Ha s Hs. split; [exact Hs|]. intros b [= <-]. exact Ha. Qed.

Lemma preserves_lift {A} (r : result A) (post : A -> Prop) :
  (forall a, r = Ok a -> post a) -> preserves db (lift r) post.
Proof. intros Hr s Hs. split; [exact Hs|]. exact Hr. Qed.

Lemma preserves_bind {A B} (m : M A) (k : A -> M B)
    (mid : A -> Prop) (post : B -> Prop) :
  preserves db m mid ->
  (forall a, mid a -> preserves db (k a) post) ->
  preserves db (bind m k) post.
Proof.
  intros Hm Hk s Hs. unfold bind.
  destruct (Hm s Hs) as [Hs1 Hmid].
  destruct (m s) as [[a|e] s1]; cbn [fst snd] in *.
  - apply (Hk a (Hmid a eq_refl) s1 Hs1).
  - split; [exact Hs1|]. discriminate.
Qed.

Lemma preserves_try {A} (body : M A) (handler : exn -> option (M A))
    (post : A -> Prop) :
  preserves db body post ->
  (forall e h, handler e = Some h -> preserves db h post) ->
  preserves db (try_except body handler) post.
Proof.
  intros Hbody Hhandler s Hs. unfold try_except.
  destruct (Hbody s Hs) as [Hs1 Hpost].
  destruct (body s) as [[a|e] s1]; cbn [fst snd] in *.
  - split; [exact Hs1|]. exact Hpost.
  - destruct (handler e) as [h|] eqn:E.
    + apply (Hhandler e h E s1 Hs1).
    + split; [exact Hs1|]. discriminate.
Qed.

Lemma preserves_query {A} (table : Database -> gmap Z A)
    (post : list (Z * A) -> Prop) :
  (forall w, writes_resolve db w -> post (map_to_list (table w))) ->
  preserves db (query table) post.
Proof.
  intros Hpost s Hs. split; [exact Hs|].
  intros rows [= <-]. apply Hpost, Hs.
Qed.

Lemma preserves_query_categories :
  preserves db (query categories) (fun rows => rows = map_to_list (categories db)).
Proof. apply preserves_query. intros w (-> & _). reflexivity. Qed.

Lemma preserves_query_publishers :
  preserves db (query publishers) (fun rows => rows = map_to_list (publishers db)).
Proof. apply preserves_query. intros w (_ & -> & _). reflexivity. Qed.

Lemma preserves_query_games :
  preserves db (query games) (fun rows => forall row, row ∈ rows -> game_ok db row).
Proof.
  apply preserves_query. intros w (_ & _ & Hgames) [id g] Hrow.
  apply elem_of_map_to_list in Hrow. apply (Hgames id g Hrow).
Qed.

Lemma preserves_commit : preserves db commit (fun _ => True).
Proof.
  intros s [Hstored Hworking]. unfold commit.
  destruct (integrity_ok _ _); cbn [fst snd]; split; try done.
Qed.

Lemma preserves_rollback : preserves db rollback (fun _ => True).
Proof. intros s [Hstored Hworking]. unfold rollback. cbn. done. Qed.

Lemma preserves_to_dict (game : Z * Game) :
  preserves db (to_dict game) (fun _ => True).
Proof. intros s Hs. split; [exact Hs | done]. Qed.

Lemma preserves_session_add (g : Game) :
  references (categories db) (category_id g) ->
  references (publishers db) (publisher_id g) ->
  preserves db (session_add g) (fun _ => True).
Proof.
  intros Hcat Hpub s [Hstored Hworking]. unfold session_add. cbn [fst snd].
  split; [|done]. split; [exact Hstored|]. cbn [working].
  apply (writes_resolve_with_game _ (fresh_id (games (working s)), g) Hworking).
  split; left; assumption.
Qed.

Lemma game_ok_set_field (game : Z * Game) (f : Field) (v : json) :
  game_ok db game ->
  (f = CategoryId -> references (categories db) v) ->
  (f = PublisherId -> references (publishers db) v) ->
  game_ok db (game.1, set_field f v game.2).
Proof.
  intros [Hcat Hpub] Hc Hp.
  destruct f; cbn [set_field]; split; cbn [fst snd]; try assumption.
  - left. cbn [category_id]. apply Hc. reflexivity.
  - left. cbn [publisher_id]. apply Hp. reflexivity.
Qed.

Lemma preserves_setattr (game : Z * Game) (f : Field) (v : json) :
  game_ok db game ->
  (f = CategoryId -> references (categories db) v) ->
  (f = PublisherId -> references (publishers db) v) ->
  preserves db (setattr game f v) (game_ok db).
Proof.
  intros Hok Hc Hp. unfold setattr.
  apply (preserves_bind _ _ (fun v' => v' = v)).
  - apply preserves_lift. unfold validated.
    destruct (validates f v); [discriminate|]. intros a [= <-]. reflexivity.
  - intros v' ->. intros s [Hstored Hworking]. cbn [fst snd].
    pose proof (game_ok_set_field game f v Hok Hc Hp) as Hok'.
    split; [|intros a [= <-]; exact Hok'].
    split; [exact Hstored|]. cbn [working].
    apply (writes_resolve_with_game _ (game.1, set_field f v game.2) Hworking Hok').
Qed.

Lemma preserves_assign (key : string) (f : Field) (data : json) (game : Z * Game) :
  game_ok db game ->
  (f = CategoryId -> forall v, contains key data = Ok true ->
     getitem key data = Ok v -> references (categories db) v) ->
  (f = PublisherId -> forall v, contains key data = Ok true ->
     getitem key data = Ok v -> references (publishers db) v) ->
  preserves db (assign_if_present key f data game) (game_ok db).
Proof.
  intros Hok Hc Hp. unfold assign_if_present.
  apply (preserves_bind _ _ (fun b => contains key data = Ok b)).
  { apply preserves_lift. done. }
  intros [|] Hpresent; [|apply preserves_ret; exact Hok].
  apply (preserves_bind _ _ (fun v => getitem key data = Ok v)).
  { apply preserves_lift. done. }
  intros v Hv. apply preserves_setattr; [exact Hok| |].
  - intros Hf. apply (Hc Hf v Hpresent Hv).
  - intros Hf. apply (Hp Hf v Hpresent Hv).
Qed.

Lemma preserves_reference_ok (key : string) (table : Database -> gmap Z string)
    (data : json) :
  preserves db (query table) (fun rows => rows = map_to_list (table db)) ->
  preserves db (reference_ok key table data)
    (fun ok => ok = true ->
       forall v, contains key data = Ok true -> getitem key data = Ok v ->
         references (table db) v).
Proof.
  intros Hquery. unfold reference_ok.
  apply (preserves_bind _ _ (fun b => contains key data = Ok b)).
  { apply preserves_lift. done. }
  intros [|] Hpresent.
  - apply (preserves_bind _ _ (fun v => getitem key data = Ok v)).
    { apply preserves_lift. done. }
    intros v Hv. apply (preserves_bind _ _ _ _ Hquery). intros rows ->.
    destruct (first _) as [row|] eqn:E; apply preserves_ret.
    + intros _ v' _ Hv'. apply first_by_key_found in E. congruence.
    + discriminate.
  - apply preserves_ret. intros _ v Hcontra. congruence.
Qed.

Lemma preserves_on_error (e : exn) (h : M Response) :
  on_error e = Some h -> preserves db h (fun _ => True).
Proof.
  destruct e; cbn [on_error]; intros [= <-];
    (apply (preserves_bind _ _ _ _ preserves_rollback); intros _ _;
     apply preserves_ret; done).
Qed.

Lemma preserves_create_game (data : json) :
  preserves db (create_game data) (fun _ => True).
Proof.
  unfold create_game.
  destruct (truthy data); cbn [negb]; [|apply preserves_ret; done].
  apply (preserves_bind _ _ (fun _ => True)); [apply preserves_lift; done|].
  intros [|? ?] _; [|apply preserves_ret; done].
  apply (preserves_bind _ _ (fun v => getitem "category_id" data = Ok v));
    [apply preserves_lift; done|].
  intros cid Hcid.
  apply (preserves_bind _ _ _ _ preserves_query_categories). intros rows ->.
  destruct (first _) as [crow|] eqn:Hcat; [|apply preserves_ret; done].
  apply first_by_key_found in Hcat.
  apply (preserves_bind _ _ (fun v => getitem "publisher_id" data = Ok v));
    [apply preserves_lift; done|].
  intros pid Hpid.
  apply (preserves_bind _ _ _ _ preserves_query_publishers). intros rows ->.
  destruct (first _) as [prow|] eqn:Hpub; [|apply preserves_ret; done].
  apply first_by_key_found in Hpub.
  apply preserves_try; [|apply preserves_on_error].
  unfold create_game_try.
  apply (preserves_bind _ _ (fun _ => True)); [apply preserves_lift; done|].
  intros t _.
  apply (preserves_bind _ _ (fun _ => True)); [apply preserves_lift; done|].
  intros d _.
  apply (preserves_bind _ _ (fun v => v = cid));
    [apply preserves_lift; congruence|].
  intros c ->.
  apply (preserves_bind _ _ (fun v => v = pid));
    [apply preserves_lift; congruence|].
  intros p ->.
  apply (preserves_bind _ _ (fun _ => True)); [apply preserves_lift; done|].
  intros r _.
  apply (preserves_bind _ _ (fun g => g = mkGame t d cid pid r)).
  { apply preserves_lift. intros g Hg. apply Game_init_ok. exact Hg. }
  intros g ->.
  apply (preserves_bind _ _ (fun _ => True)).
  { apply preserves_session_add; assumption. }
  intros game _.
  apply (preserves_bind _ _ _ _ preserves_commit). intros _ _.
  apply (preserves_bind _ _ _ _ (preserves_to_dict game)). intros created _.
  apply preserves_ret. done.
Qed.

Lemma preserves_update_fields (game : Z * Game) (data : json) :
  game_ok db game ->
  (forall v, contains "category_id" data = Ok true ->
     getitem "category_id" data = Ok v -> references (categories db) v) ->
  (forall v, contains "publisher_id" data = Ok true ->
     getitem "publisher_id" data = Ok v -> references (publishers db) v) ->
  preserves db (update_fields game data) (game_ok db).
Proof.
  intros Hok Hcat Hpub. unfold update_fields.
  apply (preserves_bind _ _ (game_ok db)).
  { apply preserves_assign; [exact Hok|discriminate|discriminate]. }
  clear game Hok. intros game Hok.
  apply (preserves_bind _ _ (game_ok db)).
  { apply preserves_assign; [exact Hok|discriminate|discriminate]. }
  clear game Hok. intros game Hok.
  apply (preserves_bind _ _ (game_ok db)).
  { apply preserves_assign; [exact Hok|intros _; exact Hcat|discriminate]. }
  clear game Hok. intros game Hok.
  apply (preserves_bind _ _ (game_ok db)).
  { apply preserves_assign; [exact Hok|discriminate|intros _; exact Hpub]. }
  clear game Hok. intros game Hok.
  apply preserves_assign; [exact Hok|discriminate|discriminate].
Qed.

Lemma preserves_update_game (id : Z) (data : json) :
  preserves db (update_game id data) (fun _ => True).
Proof.
  unfold update_game.
  apply (preserves_bind _ _ _ _ preserves_query_games). intros rows Hrows.
  destruct (first _) as [game|] eqn:Hfirst; [|apply preserves_ret; done].
  assert (game_ok db game) as Hok.
  { apply Hrows. apply head_Some_elem_of in Hfirst.
    apply list_elem_of_In, filter_In in Hfirst as [Hin _].
    apply list_elem_of_In. exact Hin. }
  destruct (truthy data); cbn [negb]; [|apply preserves_ret; done].
  eapply preserves_bind.
  { apply preserves_reference_ok, preserves_query_categories. }
  intros [|] Hcat; cbn [negb]; [|apply preserves_ret; done].
  eapply preserves_bind.
  { apply preserves_reference_ok, preserves_query_publishers. }
  intros [|] Hpub; cbn [negb]; [|apply preserves_ret; done].
  apply preserves_try; [|apply preserves_on_error].
  unfold update_game_try.
  apply (preserves_bind _ _ (game_ok db)).
  { apply preserves_update_fields; [exact Hok|apply Hcat|apply Hpub]; reflexivity. }
  intros game' _.
  apply (preserves_bind _ _ _ _ preserves_commit). intros _ _.
  apply (preserves_bind _ _ _ _ (preserves_to_dict game')). intros updated _.
  apply preserves_ret. done.
Qed.

Lemma serve_writes_resolve (handler : M Response) :
  preserves db handler (fun _ => True) ->
  writes_resolve db (serve handler db).2.
Proof.
  intros Hh. destruct (Hh (begin db) session_inv_begin) as [[Hstored _] _].
  unfold serve. destruct (handler (begin db)) as [r s]. exact Hstored.
Qed.

End Invariant.

(** C7: create and update keep the foreign keys of the games resolving.
    The checks come before any write: after either operation the category
    and publisher tables are as before, and each foreign key of each game
    references an existing row or is the value that game already had; so
    if every game's foreign keys resolved before, they resolve after. *)
Theorem foreign_keys_preserved (db : Database) (id : Z) (data : json) :
  (writes_resolve db (serve (create_game data) db).2 /\
   writes_resolve db (serve (update_game id data) db).2) /\
  (referential_integrity db ->
   referential_integrity (serve (create_game data) db).2 /\
   referential_integrity (serve (update_game id data) db).2).
Proof.
  pose proof (serve_writes_resolve db _ (preserves_create_game db data)) as Hcreate.
  pose proof (serve_writes_resolve db _ (preserves_update_game db id data)) as Hupdate.
  split; [split; assumption|].
  intros Hri. split; eapply writes_resolve_integrity; eassumption.
Qed.

End Properties.

(** ** The properties on the sample database *)

Lemma create_game_created_witness :
  exists (id : Z) (created : gmap string json),
    serve (create_game (models := sample_models) sample_body) sample_db =
    (Ok (mkResponse (JObj created) 201), with_game id sample_created sample_db) /\
    games sample_db !! id = None /\
    games (with_game id sample_created sample_db) !! id = Some sample_created /\
    category_id sample_created = JInt 1 /\
    publisher_id sample_created = JInt 2 /\
    created !! "category_id" = Some (JInt 1) /\
    created !! "publisher_id" = Some (JInt 2).
Proof.
  apply (create_game_created (models := sample_models) sample_db sample_fields
           (JStr "Agile Adventures") (JStr "Navigate your team through sprints")
           (JInt 1) (JInt 2) sample_created).
  - vm_compute. reflexivity.
  - vm_compute. reflexivity.
  - vm_compute. reflexivity.
  - vm_compute. reflexivity.
  - exists 1, "Strategy". split; vm_compute; reflexivity.
  - exists 2, "DevGames". split; vm_compute; reflexivity.
  - vm_compute. reflexivity.
  - vm_compute. reflexivity.
Defined.

Lemma update_star_rating_only_witness :
  exists (r : Response) (db' : Database) (g' : Game),
    serve (update_game (models := sample_models) 1 (JObj {[ "star_rating" := JInt 5 ]}))
          sample_db = (Ok r, db') /\
    games db' !! 1 = Some g' /\
    title g' = title sample_game /\
    description g' = description sample_game /\
    category_id g' = category_id sample_game /\
    publisher_id g' = publisher_id sample_game /\
    (forall id', id' <> 1 -> games db' !! id' = games sample_db !! id') /\
    categories db' = categories sample_db /\
    publishers db' = publishers sample_db.
Proof.
  apply (update_star_rating_only (models := sample_models) sample_db 1 sample_game (JInt 5)).
  vm_compute. reflexivity.
Defined.



Lemma create_game_unknown_category_witness :
  serve (create_game (models := sample_models)
           (JObj (<[ "category_id" := JInt 999 ]> sample_fields))) sample_db =
  (Ok (mkResponse (JObj {[ "error" := JStr "Category not found" ]}) 400), sample_db).
Proof.
  apply (create_game_unknown_category (models := sample_models) sample_db
           (<[ "category_id" := JInt 999 ]> sample_fields)
           (JStr "Agile Adventures") (JStr "Navigate your team through sprints")
           (JInt 999) (JInt 2)).
  - vm_compute. reflexivity.
  - vm_compute. reflexivity.
  - vm_compute. reflexivity.
  - vm_compute. reflexivity.
  - intros (id & name & [= <-] & Hrow). vm_compute in Hrow. discriminate.
Defined.

(** C4, as stated, fails: a body that carries an unknown category_id and
    lacks the other required fields is answered with the list of the
    missing fields, since the presence check comes first. *)
Lemma create_game_unknown_category_counterexample :
  ~ references (categories sample_db) (JInt 999) /\
  serve (create_game (models := sample_models) (JObj {[ "category_id" := JInt 999 ]}))
        sample_db =
  (Ok (mkResponse
         (JObj {[ "error" :=
                  JStr "Missing required fields: title, description, publisher_id" ]})
         400), sample_db) /\
  serve (create_game (models := sample_models) (JObj {[ "category_id" := JInt 999 ]}))
        sample_db <>
  (Ok (mkResponse (JObj {[ "error" := JStr "Category not found" ]}) 400), sample_db).
Proof.
  split; [|split].
  - intros (id & name & [= <-] & Hrow). vm_compute in Hrow. discriminate.
  - vm_compute. reflexivity.
  - intros Heq.
    apply (f_equal (fun x => match x.1 with
                             | Ok r => match body r with
                                       | JObj m => m !! "error"
                                       | _ => None
                                       end
                             | Raise _ => None
                             end)) in Heq.
    vm_compute in Heq. discriminate.
Qed.

Lemma errors_roll_back_witness :
  create_game (models := sample_models)
    (JObj (<[ "title" := JStr "x" ]> sample_fields)) (begin sample_db) =
  (Ok (mkResponse
         (JObj {[ "error" := JStr "Game title must be at least 2 characters" ]}) 400),
   begin sample_db) /\
  create_game (models := sample_models)
    (JObj (<[ "title" := JNull ]> sample_fields)) (begin sample_db) =
  (Ok (mkResponse (JObj {[ "error" := JStr "Database integrity error" ]}) 400),
   begin sample_db) /\
  update_game (models := sample_models) 1
    (JObj {[ "title" := JStr "x" ]}) (begin sample_db) =
  (Ok (mkResponse
         (JObj {[ "error" := JStr "Game title must be at least 2 characters" ]}) 400),
   begin sample_db) /\
  update_game (models := sample_models) 1
    (JObj {[ "title" := JNull ]}) (begin sample_db) =
  (Ok (mkResponse (JObj {[ "error" := JStr "Database integrity error" ]}) 400),
   begin sample_db).
Proof.
  destruct (errors_roll_back (models := sample_models) sample_db) as [Hcreate Hupdate].
  assert (references (categories sample_db) (JInt 1)) as Hcat
    by (exists 1, "Strategy"; split; vm_compute; reflexivity).
  assert (references (publishers sample_db) (JInt 2)) as Hpub
    by (exists 2, "DevGames"; split; vm_compute; reflexivity).
  split; [|split; [|split]].
  - refine (proj1 (Hcreate (<[ "title" := JStr "x" ]> sample_fields)
                     (JStr "x") (JStr "Navigate your team through sprints")
                     (JInt 1) (JInt 2) _ _ _ _ Hcat Hpub)
              "Game title must be at least 2 characters" _);
      vm_compute; reflexivity.
  - refine (proj2 (Hcreate (<[ "title" := JNull ]> sample_fields)
                     JNull (JStr "Navigate your team through sprints")
                     (JInt 1) (JInt 2) _ _ _ _ Hcat Hpub)
              (mkGame JNull (JStr "Navigate your team through sprints")
                      (JInt 1) (JInt 2) JNull) _ _);
      vm_compute; reflexivity.
  - refine (proj1 (Hupdate 1 sample_game (JObj {[ "title" := JStr "x" ]}) _ _ _ _)
              "Game title must be at least 2 characters" (begin sample_db) _);
      vm_compute; reflexivity.
  - refine (proj2 (Hupdate 1 sample_game (JObj {[ "title" := JNull ]}) _ _ _ _)
              (1, set_field Title JNull sample_game)
              (mkSession sample_db
                 (with_game 1 (set_field Title JNull sample_game) sample_db)) _ _);
      vm_compute; reflexivity.
Defined.

Lemma sample_db_integrity : referential_integrity sample_db.
Proof.
  intros id g Hg. unfold sample_db in Hg. cbn [games] in Hg.
  apply lookup_singleton_Some in Hg as [<- <-].
  split; right.
  - exists 1, "Strategy". split; vm_compute; reflexivity.
  - exists 2, "DevGames". split; vm_compute; reflexivity.
Qed.

Lemma foreign_keys_preserved_witness :
  referential_integrity
    (serve (create_game (models := sample_models) sample_body) sample_db).2 /\
  referential_integrity
    (serve (update_game (models := sample_models) 1 sample_body) sample_db).2.
Proof.
  apply (proj2 (foreign_keys_preserved (models := sample_models) sample_db 1 sample_body)).
  exact sample_db_integrity.
Defined.

Lemma delete_game_removes_witness :
  serve (delete_game (models := sample_models) 1) sample_db =
  (Ok (mkResponse (JObj ∅) 204), without 1 sample_db) /\
  games (without 1 sample_db) !! 1 = None /\
  exists r, serve (delete_game (models := sample_models) 3) sample_db = (Ok r, sample_db) /\
            status r = 404.
Proof.
  destruct (delete_game_removes (models := sample_models) sample_db 1) as [Hfound _].
  destruct (delete_game_removes (models := sample_models) sample_db 3) as [_ Habsent].
  destruct (Hfound sample_game) as (Hserve & Hgone & _).
  - vm_compute. reflexivity.
  - vm_compute. reflexivity.
  - split; [exact Hserve|]. split; [exact Hgone|].
    apply Habsent. vm_compute. reflexivity.
Defined.

Lemma delete_then_get_404_witness :
  serve (get_game 1) (without 1 sample_db) =
  (Ok (mkResponse (JObj {[ "error" := JStr "Game not found" ]}) 404),
   without 1 sample_db).
Proof.
  apply (delete_then_get_404 (models := sample_models) sample_db (without 1 sample_db) 1
           (mkResponse (JObj ∅) 204)).
  - vm_compute. reflexivity.
  - reflexivity.
Defined.

Lemma falsy_body_rejected_witness :
  serve (create_game (models := sample_models) (JObj ∅)) sample_db =
  (Ok (mkResponse (JObj {[ "error" := JStr "Request body must be JSON" ]}) 400),
   sample_db) /\
  serve (update_game (models := sample_models) 1 (JObj ∅)) sample_db =
  (Ok (mkResponse (JObj {[ "error" := JStr "Request body must be JSON" ]}) 400),
   sample_db).
Proof.
  destruct (falsy_body_rejected (models := sample_models) sample_db 1 (JObj ∅))
    as [Hcreate Hupdate].
  - vm_compute. reflexivity.
  - split; [exact Hcreate|]. apply Hupdate. exists sample_game.
    vm_compute. reflexivity.
Defined.

(** ** Bodies that are not objects *)

(** A number is truthy but not iterable: the membership test of the
    required fields raises, and nothing catches it. *)
Example create_game_number_body :
  serve (create_game (models := sample_models) (JInt 7)) sample_db =
  (Raise TypeError, sample_db).
Proof. vm_compute. reflexivity. Qed.

(** A string that names no required field is answered as a body lacking
    all four. *)
Example create_game_string_body :
  serve (create_game (models := sample_models) (JStr "abc")) sample_db =
  (Ok (mkResponse
         (JObj {[ "error" :=
                  JStr "Missing required fields: title, description, category_id, publisher_id" ]})
         400), sample_db).
Proof. vm_compute. reflexivity. Qed.

(** A list of the four names passes the presence check and fails at the
    subscript. *)
Example create_game_list_body :
  serve (create_game (models := sample_models)
           (JArr [JStr "title"; JStr "description"; JStr "category_id";
                  JStr "publisher_id"])) sample_db =
  (Raise TypeError, sample_db).
Proof. vm_compute. reflexivity. Qed.

(** A PUT that names an unknown publisher changes nothing. *)
Example update_game_unknown_publisher :
  serve (update_game (models := sample_models) 1
           (JObj {[ "title" := JStr "Renamed"; "publisher_id" := JInt 9 ]})) sample_db =
  (Ok (mkResponse (JObj {[ "error" := JStr "Publisher not found" ]}) 400), sample_db).
Proof. vm_compute. reflexivity. Qed.

(** The list of games is served in full. *)
Example get_games_sample :
  serve get_games sample_db =
  (Ok (mkResponse (JArr [serialize sample_db (1, sample_game)]) 200), sample_db).
Proof. vm_compute. reflexivity. Qed.

(** Membership in a string body is the substring test. *)
Example contains_substring :
  contains "title" (JStr "subtitle") = Ok true /\
  contains "title" (JStr "titel") = Ok false.
Proof. split; vm_compute; reflexivity. Qed.

(** * Further properties of the routes *)

(** ** The list of games *)

Lemma filter_key_eq_short {A} (t : gmap Z A) (v : json) :
  (length (List.filter (fun r => key_eq r.1 v) (map_to_list t)) <= 1)%nat.
Proof.
  destruct v; cbn [key_eq]; try (rewrite filter_none; cbn; lia).
  destruct (t !! n) as [a|] eqn:E.
  - rewrite (filter_key_present _ n a); [cbn; lia| |].
    + apply NoDup_fst_map_to_list.
    + apply elem_of_map_to_list. exact E.
  - rewrite filter_key_absent; [cbn; lia|].
    intros a Ha. apply elem_of_map_to_list in Ha. congruence.
Qed.

(** When the join condition matches at most one right row, the outer join
    has exactly one row for each left row. *)
Lemma outer_join_unique {A B} (on : A -> B -> bool) (l : list A) (r : list B) :
  (forall a, (length (List.filter (on a) r) <= 1)%nat) ->
  map fst (outer_join on l r) = l.
Proof.
  intros Hshort. unfold outer_join.
  induction l as [|a l IH]; [reflexivity|].
  cbn [flat_map]. rewrite map_app, IH. specialize (Hshort a).
  destruct (List.filter (on a) r) as [|b [|c ms]]; cbn in *; [reflexivity..|lia].
Qed.

Lemma base_query_all (s : Session) :
  get_games_base_query s = (Ok (map_to_list (games (working s))), s).
Proof.
  unfold get_games_base_query, bind, query, ret. cbn [fst snd].
  f_equal. f_equal.
  rewrite <- (map_map fst fst).
  rewrite outer_join_unique by (intros a; apply filter_key_eq_short).
  apply outer_join_unique. intros a. apply filter_key_eq_short.
Qed.

Lemma to_dicts_run (rows : list (Z * Game)) (s : Session) :
  to_dicts rows s = (Ok (map (serialize (working s)) rows), s).
Proof.
  induction rows as [|game rows IH]; [reflexivity|].
  cbn [to_dicts]. unfold bind, to_dict at 1. rewrite IH. reflexivity.
Qed.

(** X1: the joined base query yields every game row exactly once, also a
    game whose publisher_id or category_id is null or references no row. *)
Theorem base_query_every_game_once (s : Session) :
  exists rows,
    get_games_base_query s = (Ok rows, s) /\
    NoDup rows.*1 /\
    forall id g, (id, g) ∈ rows <-> games (working s) !! id = Some g.
Proof.
  exists (map_to_list (games (working s))).
  split; [apply base_query_all|]. split.
  - apply NoDup_fst_map_to_list.
  - intros id g. apply elem_of_map_to_list.
Qed.

(** X2: the list route answers 200 with an array holding the serialization
    of each game of the database, one entry per game, and writes nothing. *)
Theorem get_games_lists_all (db : Database) :
  exists entries,
    serve get_games db = (Ok (mkResponse (JArr entries) 200), db) /\
    length entries = size (games db) /\
    forall d, d ∈ entries <->
      exists id g, games db !! id = Some g /\ d = serialize db (id, g).
Proof.
  exists (map (serialize db) (map_to_list (games db))).
  split; [|split].
  - unfold serve, get_games, bind. rewrite base_query_all, to_dicts_run.
    reflexivity.
  - rewrite length_map. apply length_map_to_list.
  - intros d. rewrite list_elem_of_In, in_map_iff. split.
    + intros ([id g] & <- & Hin). exists id, g. split; [|reflexivity].
      apply elem_of_map_to_list, list_elem_of_In. exact Hin.
    + intros (id & g & Hg & ->). exists (id, g). split; [reflexivity|].
      apply list_elem_of_In, elem_of_map_to_list. exact Hg.
Qed.

Section MoreProperties.
Context {models : Models}.

(** ** Every outcome of a POST *)

Lemma missing_in_str (s : string) (fields : list string) :
  missing_in (JStr s) fields =
  Ok (List.filter (fun f => negb (is_substring f s)) fields).
Proof.
  induction fields as [|f fields IH]; [reflexivity|].
  cbn [missing_in contains List.filter]. rewrite IH.
  destruct (is_substring f s); reflexivity.
Qed.

Lemma missing_in_list (l : list json) (fields : list string) :
  missing_in (JArr l) fields =
  Ok (List.filter (fun f => negb (existsb (is_str f) l)) fields).
Proof.
  induction fields as [|f fields IH]; [reflexivity|].
  cbn [missing_in contains List.filter]. rewrite IH.
  destruct (existsb (is_str f) l); reflexivity.
Qed.

(** A POST ends in one of three ways: an uncaught [TypeError] on a body
    that is not a [dict], a 400 answer, or the 201 answer of a stored
    game; the first two leave the session as it started. *)
Lemma create_game_cases (data : json) (db : Database) :
  (create_game data (begin db) = (Raise TypeError, begin db) /\ not_dict data) \/
  (exists resp,
     create_game data (begin db) = (Ok resp, begin db) /\ status resp = 400) \/
  (exists m t d c p,
     data = JObj m /\
     m !! "title" = Some t /\ m !! "description" = Some d /\
     m !! "category_id" = Some c /\ m !! "publisher_id" = Some p /\
     references (categories db) c /\ references (publishers db) p /\
     create_game data (begin db) =
     (Ok (mkResponse
            (serialize
               (with_game (fresh_id (games db))
                  (mkGame t d c p (default JNull (m !! "star_rating"))) db)
               (fresh_id (games db),
                mkGame t d c p (default JNull (m !! "star_rating")))) 201),
      begin (with_game (fresh_id (games db))
               (mkGame t d c p (default JNull (m !! "star_rating"))) db))).
Proof.
  destruct data as [|b|n|s|l|m].
  - right; left. eexists. split; reflexivity.
  - destruct b.
    + left. split; [reflexivity|]. intros m. discriminate.
    + right; left. eexists. split; reflexivity.
  - unfold create_game. cbn [truthy]. destruct (n =? 0); cbn [negb].
    + right; left. eexists. split; reflexivity.
    + left. split; [reflexivity|]. intros m. discriminate.
  - unfold create_game. destruct (truthy (JStr s)); cbn [negb].
    + unfold bind, lift. rewrite missing_in_str.
      destruct (List.filter _ required_fields).
      * left. split; [reflexivity|]. intros m. discriminate.
      * right; left. eexists. split; reflexivity.
    + right; left. eexists. split; reflexivity.
  - unfold create_game. destruct (truthy (JArr l)); cbn [negb].
    + unfold bind, lift. rewrite missing_in_list.
      destruct (List.filter _ required_fields).
      * left. split; [reflexivity|]. intros m. discriminate.
      * right; left. eexists. split; reflexivity.
    + right; left. eexists. split; reflexivity.
  - right.
    destruct (m !! "title") as [t|] eqn:Ht;
    destruct (m !! "description") as [d|] eqn:Hd;
    destruct (m !! "category_id") as [c|] eqn:Hc;
    destruct (m !! "publisher_id") as [p|] eqn:Hp.
    2-16: left; unfold create_game; destruct (truthy (JObj m)); cbn [negb];
      [|eexists; split; reflexivity];
      unfold bind, lift; rewrite missing_in_dict;
      unfold required_fields, absent; cbn [List.filter];
      rewrite Ht, Hd, Hc, Hp; eexists; split; reflexivity.
    rewrite (create_game_checks m t d c p Ht Hd Hc Hp). cbn [begin working].
    destruct (first _) as [crow|] eqn:Hcat;
      [|left; eexists; split; reflexivity].
    apply first_by_key_found in Hcat.
    destruct (first _) as [prow|] eqn:Hpub;
      [|left; eexists; split; reflexivity].
    apply first_by_key_found in Hpub.
    unfold try_except. rewrite (create_game_try_run m t d c p Ht Hd Hc Hp).
    destruct (Game_init _ _ _ _ _) as [g|e] eqn:Hinit.
    + apply Game_init_ok in Hinit. subst g.
      cbv beta iota zeta. cbn [stored working].
      destruct (integrity_ok _ _).
      * right. exists m, t, d, c, p. repeat (split; [done|]). reflexivity.
      * left. eexists. split; reflexivity.
    + apply Game_init_raises in Hinit as [msg ->].
      left. eexists. split; reflexivity.
Qed.

(** X3: a POST whose body holds the four required fields, with an existing
    category and a publisher_id that references no publisher row, answers
    400 with [{"error": "Publisher not found"}] and stores nothing. *)
Theorem create_game_unknown_publisher (db : Database) (m : gmap string json)
    (t d c p : json) :
  m !! "title" = Some t ->
  m !! "description" = Some d ->
  m !! "category_id" = Some c ->
  m !! "publisher_id" = Some p ->
  references (categories db) c ->
  ~ references (publishers db) p ->
  serve (create_game (JObj m)) db =
  (Ok (mkResponse (JObj {[ "error" := JStr "Publisher not found" ]}) 400), db).
Proof.
  intros Ht Hd Hc Hp Hcat Hpub.
  apply first_by_key_references in Hcat as [crow Hcat].
  unfold serve. rewrite (create_game_checks m t d c p Ht Hd Hc Hp).
  cbn [begin working]. rewrite Hcat, (first_by_key_dangling _ _ Hpub).
  reflexivity.
Qed.

(** X4: a POST is answered 201 only for a body that is an object holding
    the four required fields, with a category_id and a publisher_id that
    reference existing rows; the game stored is made of the body's title,
    description, category_id, publisher_id and star_rating (null when the
    body has none), other keys of the body being ignored. *)
Theorem create_game_201_only (db db' : Database) (data : json) (r : Response) :
  serve (create_game data) db = (Ok r, db') ->
  status r = 201 ->
  exists m t d c p,
    data = JObj m /\
    m !! "title" = Some t /\ m !! "description" = Some d /\
    m !! "category_id" = Some c /\ m !! "publisher_id" = Some p /\
    references (categories db) c /\ references (publishers db) p /\
    db' = with_game (fresh_id (games db))
            (mkGame t d c p (default JNull (m !! "star_rating"))) db.
Proof.
  unfold serve.
  destruct (create_game_cases data db)
    as [[E _]|[(resp & E & Hst)|(m & t & d & c & p & Hdata & Ht & Hd & Hc & Hp & Hcat & Hpub & E)]];
    rewrite E.
  - discriminate.
  - intros [= <- <-]. rewrite Hst. discriminate.
  - intros [= <- <-] _. exists m, t, d, c, p. done.
Qed.

(** X5: whatever the body, a POST leaves every game that was stored as it
    was and does not touch the publisher and category tables; unless it
    answers 201 it leaves the whole database as it was. *)
Theorem create_game_frame (db : Database) (data : json) :
  (forall id g, games db !! id = Some g ->
     games (serve (create_game data) db).2 !! id = Some g) /\
  publishers (serve (create_game data) db).2 = publishers db /\
  categories (serve (create_game data) db).2 = categories db /\
  ((forall r, (serve (create_game data) db).1 = Ok r -> status r <> 201) ->
   (serve (create_game data) db).2 = db).
Proof.
  unfold serve.
  destruct (create_game_cases data db)
    as [[E _]|[(resp & E & Hst)|(m & t & d & c & p & _ & _ & _ & _ & _ & _ & _ & E)]];
    rewrite E; cbn [fst snd begin stored]; try done.
  split; [|split; [reflexivity|split; [reflexivity|]]].
  - intros id g Hg. unfold with_game. cbn [set_games games].
    rewrite lookup_insert_ne; [exact Hg|].
    intros <-. rewrite fresh_id_fresh in Hg. discriminate.
  - intros Hno. exfalso. eapply Hno; reflexivity.
Qed.

(** X6: after a POST answered 201 the created game can be read back: the
    body carries its id, no game had that id before, and a GET of that id
    answers 200 with the same body. *)
Theorem create_then_get (db db' : Database) (data : json) (r : Response) :
  serve (create_game data) db = (Ok r, db') ->
  status r = 201 ->
  exists (id : Z) (created : gmap string json),
    body r = JObj created /\
    created !! "id" = Some (JInt id) /\
    games db !! id = None /\
    serve (get_game id) db' = (Ok (mkResponse (body r) 200), db').
Proof.
  unfold serve.
  destruct (create_game_cases data db)
    as [[E _]|[(resp & E & Hst)|(m & t & d & c & p & _ & _ & _ & _ & _ & _ & _ & E)]];
    rewrite E.
  - discriminate.
  - intros [= <- <-]. rewrite Hst. discriminate.
  - intros [= <- <-] _. cbn [begin stored body].
    eexists (fresh_id (games db)), _.
    split; [reflexivity|]. split; [|split].
    + apply lookup_insert_eq.
    + apply fresh_id_fresh.
    + rewrite get_game_run. cbn [begin working stored].
      unfold with_game at 1. cbn [set_games games].
      rewrite lookup_insert_eq. reflexivity.
Qed.

(** ** Every outcome of a PUT *)

Lemma with_game_same (db : Database) (id : Z) (g : Game) :
  games db !! id = Some g -> with_game id g db = db.
Proof.
  intros Hg. destruct db as [gs ps cs]. unfold with_game, set_games.
  cbn [games publishers categories] in *. f_equal. apply insert_id. exact Hg.
Qed.

Lemma with_game_twice (db : Database) (id : Z) (g g' : Game) :
  set_games (<[id := g']> (games (with_game id g db))) (with_game id g db) =
  with_game id g' db.
Proof.
  unfold with_game, set_games. cbn [games publishers categories].
  f_equal. apply insert_insert_eq.
Qed.

Lemma tracked_begin (db : Database) (id : Z) (g : Game) :
  games db !! id = Some g -> tracked db id (id, g) (begin db).
Proof.
  intros Hg. split; [reflexivity|]. split; [reflexivity|].
  cbn [begin working snd]. symmetry. apply with_game_same. exact Hg.
Qed.

(** The existence check of a foreign key either raises on a body that is
    not a [dict], or tells whether the supplied key, if any, references a
    row; it writes nothing. *)
Lemma reference_ok_cases (key : string) (table : Database -> gmap Z string)
    (data : json) (s : Session) :
  (reference_ok key table data s = (Raise TypeError, s) /\ not_dict data) \/
  (reference_ok key table data s = (Ok true, s) /\
   forall v, supplied key data = Some v -> references (table (working s)) v) \/
  (reference_ok key table data s = (Ok false, s) /\
   exists v, supplied key data = Some v /\ ~ references (table (working s)) v).
Proof.
  unfold reference_ok, supplied.
  destruct data as [|b|n|str|l|m]; unfold bind, lift, contains, getitem.
  - left. split; [reflexivity|]. intros m. discriminate.
  - left. split; [reflexivity|]. intros m. discriminate.
  - left. split; [reflexivity|]. intros m. discriminate.
  - destruct (is_substring key str).
    + left. split; [reflexivity|]. intros m. discriminate.
    + right; left. split; [reflexivity|]. discriminate.
  - destruct (existsb (is_str key) l).
    + left. split; [reflexivity|]. intros m. discriminate.
    + right; left. split; [reflexivity|]. discriminate.
  - right. destruct (m !! key) as [v|].
    + unfold query. destruct (first _) as [row|] eqn:E.
      * left. split; [reflexivity|]. intros v' [= <-].
        apply (first_by_key_found _ _ _ E).
      * right. split; [reflexivity|]. exists v. split; [reflexivity|].
        intros Href. apply first_by_key_references in Href as [row Hrow].
        congruence.
    + left. split; [reflexivity|]. discriminate.
Qed.

(** One conditional assignment: the object and the transaction's view
    take the supplied value, or a value error or a [TypeError] is raised
    and nothing is committed. *)
Lemma assign_tracked (key : string) (f : Field) (data : json)
    (db : Database) (id : Z) (game : Z * Game) (s : Session) :
  tracked db id game s ->
  match assign_if_present key f data game s with
  | (Ok game', s') =>
      tracked db id game' s' /\ game'.2 = patch key f data game.2
  | (Raise e, s') =>
      stored s' = db /\
      ((e = TypeError /\ not_dict data) \/ exists msg, e = ValueError msg)
  end.
Proof.
  intros (Hid & Hstored & Hworking).
  unfold assign_if_present, patch, supplied.
  destruct data as [|b|n|str|l|m]; unfold bind, lift, contains, getitem.
  - split; [exact Hstored|]. left. split; [reflexivity|]. intros m. discriminate.
  - split; [exact Hstored|]. left. split; [reflexivity|]. intros m. discriminate.
  - split; [exact Hstored|]. left. split; [reflexivity|]. intros m. discriminate.
  - destruct (is_substring key str).
    + split; [exact Hstored|]. left. split; [reflexivity|]. intros m. discriminate.
    + cbn. done.
  - destruct (existsb (is_str key) l).
    + split; [exact Hstored|]. left. split; [reflexivity|]. intros m. discriminate.
    + cbn. done.
  - destruct (m !! key) as [v|]; [|cbn; done].
    unfold setattr, bind, lift, validated.
    destruct (validates f v) as [msg|].
    + split; [exact Hstored|]. right. exists msg. reflexivity.
    + cbn [fst snd]. split; [|reflexivity].
      split; [exact Hid|]. split; [exact Hstored|].
      cbn [working]. rewrite Hid, Hworking. apply with_game_twice.
Qed.

Lemma update_fields_tracked (data : json) (db : Database) (id : Z)
    (game : Z * Game) (s : Session) :
  tracked db id game s ->
  match update_fields game data s with
  | (Ok game', s') =>
      tracked db id game' s' /\ game'.2 = patched data game.2
  | (Raise e, s') =>
      stored s' = db /\
      ((e = TypeError /\ not_dict data) \/ exists msg, e = ValueError msg)
  end.
Proof.
  intros H0. unfold update_fields, patched.
  unfold bind at 1.
  pose proof (assign_tracked "title" Title data db id game s H0) as H1.
  destruct (assign_if_present "title" Title data game s) as [[g1|e] s1];
    [destruct H1 as [H1 E1]|exact H1].
  unfold bind at 1.
  pose proof (assign_tracked "description" Description data db id g1 s1 H1) as H2.
  destruct (assign_if_present "description" Description data g1 s1) as [[g2|e] s2];
    [destruct H2 as [H2 E2]|exact H2].
  unfold bind at 1.
  pose proof (assign_tracked "category_id" CategoryId data db id g2 s2 H2) as H3.
  destruct (assign_if_present "category_id" CategoryId data g2 s2) as [[g3|e] s3];
    [destruct H3 as [H3 E3]|exact H3].
  unfold bind at 1.
  pose proof (assign_tracked "publisher_id" PublisherId data db id g3 s3 H3) as H4.
  destruct (assign_if_present "publisher_id" PublisherId data g3 s3) as [[g4|e] s4];
    [destruct H4 as [H4 E4]|exact H4].
  pose proof (assign_tracked "star_rating" StarRating data db id g4 s4 H4) as H5.
  destruct (assign_if_present "star_rating" StarRating data g4 s4) as [[g5|e] s5];
    [destruct H5 as [H5 E5]|exact H5].
  split; [exact H5|]. rewrite E5, E4, E3, E2, E1. reflexivity.
Qed.

(** A PUT on an existing game ends in one of three ways: an uncaught
    [TypeError] on a body that is not a [dict], a 400 answer, both with the
    committed database as it was, or the 200 answer of the patched game. *)
Lemma update_game_cases (db : Database) (id : Z) (g : Game) (data : json) :
  games db !! id = Some g ->
  (exists s', update_game id data (begin db) = (Raise TypeError, s') /\
              stored s' = db /\ not_dict data) \/
  (exists resp s', update_game id data (begin db) = (Ok resp, s') /\
                   stored s' = db /\ status resp = 400) \/
  (update_game id data (begin db) =
   (Ok (mkResponse
          (serialize (with_game id (patched data g) db) (id, patched data g)) 200),
    begin (with_game id (patched data g) db)) /\
   truthy data = true /\
   (forall v, supplied "category_id" data = Some v -> references (categories db) v) /\
   (forall v, supplied "publisher_id" data = Some v -> references (publishers db) v) /\
   integrity_ok db (with_game id (patched data g) db) = true).
Proof.
  intros Hg.
  remember (update_game id data (begin db)) as res eqn:Hres.
  unfold update_game, bind at 1, query in Hres. rewrite first_by_id in Hres.
  cbn [begin working] in Hres. rewrite Hg in Hres.
  cbn [fmap option_fmap option_map] in Hres. fold (begin db) in Hres.
  destruct (truthy data) eqn:Htruthy; cbn [negb] in Hres;
    [|right; left; subst res; eexists _, _; split; [reflexivity|];
      split; reflexivity].
  unfold bind at 1 in Hres.
  destruct (reference_ok_cases "category_id" categories data (begin db))
    as [[E Hnd]|[[E Hcat]|[E _]]]; rewrite E in Hres; cbn [negb] in Hres.
  { left. subst res. eexists. split; [reflexivity|]. split; [reflexivity|exact Hnd]. }
  2: { right; left. subst res. eexists _, _.
       split; [reflexivity|]. split; reflexivity. }
  unfold bind at 1 in Hres.
  destruct (reference_ok_cases "publisher_id" publishers data (begin db))
    as [[E' Hnd]|[[E' Hpub]|[E' _]]]; rewrite E' in Hres; cbn [negb] in Hres.
  { left. subst res. eexists. split; [reflexivity|]. split; [reflexivity|exact Hnd]. }
  2: { right; left. subst res. eexists _, _.
       split; [reflexivity|]. split; reflexivity. }
  unfold try_except, update_game_try in Hres. unfold bind at 1 in Hres.
  pose proof (update_fields_tracked data db id (id, g) (begin db)
                (tracked_begin db id g Hg)) as Hfields.
  destruct (update_fields (id, g) data (begin db)) as [[[id' g']|e] s1].
  - destruct Hfields as [(Hid & Hstored & Hworking) Hpatched].
    cbn [fst snd] in Hid, Hworking, Hpatched. subst id' g'.
    unfold bind at 1, commit in Hres. rewrite Hstored, Hworking in Hres.
    destruct (integrity_ok _ _) eqn:Hcommit.
    + right; right. subst res. split; [reflexivity|]. done.
    + right; left. cbn [on_error] in Hres. unfold bind, rollback, ret in Hres.
      subst res. eexists _, _.
      split; [reflexivity|]. split; [exact Hstored|reflexivity].
  - destruct Hfields as [Hstored [[-> Hnd]|[msg ->]]]; cbn [on_error] in Hres.
    + left. subst res. eexists. split; [reflexivity|].
      split; [exact Hstored|exact Hnd].
    + right; left. unfold bind, rollback, ret in Hres. subst res.
      eexists _, _. split; [reflexivity|]. split; [exact Hstored|reflexivity].
Qed.

Lemma update_game_absent (db : Database) (id : Z) (data : json) :
  games db !! id = None ->
  update_game id data (begin db) =
  (Ok (mkResponse (error "Game not found") 404), begin db).
Proof.
  intros Hg. unfold update_game, bind, query. rewrite first_by_id.
  cbn [begin working]. rewrite Hg. reflexivity.
Qed.

(** X7: a PUT on an id that no game has answers 404 with
    [{"error": "Game not found"}] whatever the body, even an absent or
    invalid one, and writes nothing. *)
Theorem update_game_not_found (db : Database) (id : Z) (data : json) :
  games db !! id = None ->
  serve (update_game id data) db =
  (Ok (mkResponse (JObj {[ "error" := JStr "Game not found" ]}) 404), db).
Proof.
  intros Hg. unfold serve. rewrite (update_game_absent db id data Hg).
  reflexivity.
Qed.

(** X8: a PUT on an existing game whose body supplies a category_id that
    references no category row answers 400 with
    [{"error": "Category not found"}] and changes nothing, whatever else
    the body supplies. *)
Theorem update_game_unknown_category (db : Database) (id : Z)
    (m : gmap string json) (c : json) :
  is_Some (games db !! id) ->
  m !! "category_id" = Some c ->
  ~ references (categories db) c ->
  serve (update_game id (JObj m)) db =
  (Ok (mkResponse (JObj {[ "error" := JStr "Category not found" ]}) 400), db).
Proof.
  intros [g Hg] Hc Hcat.
  unfold serve, update_game, bind at 1, query. rewrite first_by_id.
  cbn [begin working]. rewrite Hg. cbn [fmap option_fmap option_map].
  rewrite (truthy_dict_lookup m _ _ Hc). cbn [negb].
  unfold reference_ok, bind, lift, contains, getitem, query. rewrite Hc.
  cbn [begin working]. rewrite (first_by_key_dangling _ _ Hcat). reflexivity.
Qed.

(** X9: a PUT on an existing game whose body supplies a publisher_id that
    references no publisher row, and no category_id or one that exists,
    answers 400 with [{"error": "Publisher not found"}] and changes
    nothing. *)
Theorem update_game_unknown_publisher_400 (db : Database) (id : Z)
    (m : gmap string json) (p : json) :
  is_Some (games db !! id) ->
  m !! "publisher_id" = Some p ->
  (forall c, m !! "category_id" = Some c -> references (categories db) c) ->
  ~ references (publishers db) p ->
  serve (update_game id (JObj m)) db =
  (Ok (mkResponse (JObj {[ "error" := JStr "Publisher not found" ]}) 400), db).
Proof.
  intros [g Hg] Hp Hcat Hpub.
  unfold serve, update_game, bind at 1, query. rewrite first_by_id.
  cbn [begin working]. rewrite Hg. cbn [fmap option_fmap option_map].
  rewrite (truthy_dict_lookup m _ _ Hp). cbn [negb].
  unfold bind at 1. fold (begin db).
  destruct (reference_ok_cases "category_id" categories (JObj m) (begin db))
    as [[_ Hnd]|[[E _]|[_ (v & Hv & Hno)]]].
  - exfalso. apply (Hnd m). reflexivity.
  - rewrite E. cbn [negb].
    unfold reference_ok, bind, lift, contains, getitem, query. rewrite Hp.
    cbn [begin working]. rewrite (first_by_key_dangling _ _ Hpub). reflexivity.
  - exfalso. apply Hno. apply Hcat. exact Hv.
Qed.

Lemma patched_fields (data : json) (g : Game) :
  title (patched data g) = default (title g) (supplied "title" data) /\
  description (patched data g) =
    default (description g) (supplied "description" data) /\
  category_id (patched data g) =
    default (category_id g) (supplied "category_id" data) /\
  publisher_id (patched data g) =
    default (publisher_id g) (supplied "publisher_id" data) /\
  star_rating (patched data g) =
    default (star_rating g) (supplied "star_rating" data).
Proof.
  unfold patched, patch.
  destruct (supplied "title" data), (supplied "description" data),
    (supplied "category_id" data), (supplied "publisher_id" data),
    (supplied "star_rating" data); cbn; done.
Qed.

(** X10: when a PUT on an existing game is answered 200, the game stored
    under that id has, for each of title, description, category_id,
    publisher_id and star_rating, the value the body supplies, or the
    value it had when the body supplies none; nothing else is written, and
    the body of the answer is the serialization of that game. *)
Theorem update_game_200 (db db' : Database) (id : Z) (g : Game)
    (data : json) (r : Response) :
  games db !! id = Some g ->
  serve (update_game id data) db = (Ok r, db') ->
  status r = 200 ->
  exists g',
    db' = with_game id g' db /\
    r = mkResponse (serialize db' (id, g')) 200 /\
    title g' = default (title g) (supplied "title" data) /\
    description g' = default (description g) (supplied "description" data) /\
    category_id g' = default (category_id g) (supplied "category_id" data) /\
    publisher_id g' = default (publisher_id g) (supplied "publisher_id" data) /\
    star_rating g' = default (star_rating g) (supplied "star_rating" data).
Proof.
  intros Hg. unfold serve.
  destruct (update_game_cases db id g data Hg)
    as [(s' & E & _)|[(resp & s' & E & _ & Hst)|(E & _)]]; rewrite E.
  - discriminate.
  - intros [= <- <-]. rewrite Hst. discriminate.
  - intros [= <- <-] _. exists (patched data g).
    split; [reflexivity|]. split; [reflexivity|]. apply patched_fields.
Qed.

(** X11: after a PUT answered 200, a GET of the same id answers 200 with
    the same body. *)
Theorem update_then_get (db db' : Database) (id : Z) (data : json) (r : Response) :
  serve (update_game id data) db = (Ok r, db') ->
  status r = 200 ->
  serve (get_game id) db' = (Ok (mkResponse (body r) 200), db').
Proof.
  unfold serve.
  destruct (games db !! id) as [g|] eqn:Hg.
  - destruct (update_game_cases db id g data Hg)
      as [(s' & E & _)|[(resp & s' & E & _ & Hst)|(E & _)]]; rewrite E.
    + discriminate.
    + intros [= <- <-]. rewrite Hst. discriminate.
    + intros [= <- <-] _. rewrite get_game_run. cbn [begin working stored body].
      unfold with_game at 1. cbn [set_games games]. rewrite lookup_insert_eq.
      reflexivity.
  - rewrite (update_game_absent db id data Hg).
    intros [= <- <-]. cbn [status]. discriminate.
Qed.

(** X12: a PUT on an existing game whose truthy body names none of the
    five fields (an object with other keys only, a string, a list) passes
    every check and assigns nothing: it answers 200 with the game as it
    was when the commit accepts the unchanged database, and the database
    is as it was either way. *)
Theorem update_game_no_field (db : Database) (id : Z) (g : Game) (data : json) :
  games db !! id = Some g ->
  truthy data = true ->
  contains "title" data = Ok false ->
  contains "description" data = Ok false ->
  contains "category_id" data = Ok false ->
  contains "publisher_id" data = Ok false ->
  contains "star_rating" data = Ok false ->
  serve (update_game id data) db =
  (Ok (if integrity_ok db db
       then mkResponse (serialize db (id, g)) 200
       else mkResponse (JObj {[ "error" := JStr "Database integrity error" ]}) 400),
   db).
Proof.
  intros Hg Htruthy Ht Hd Hc Hp Hr.
  unfold serve. rewrite (update_game_checks db id g data Hg Htruthy).
  - unfold try_except, update_game_try, update_fields, assign_if_present.
    unfold bind, lift. rewrite Ht, Hd, Hc, Hp, Hr.
    unfold ret, commit. cbn [begin stored working].
    destruct (integrity_ok db db); reflexivity.
  - unfold reference_ok, bind, lift. rewrite Hc. reflexivity.
  - unfold reference_ok, bind, lift. rewrite Hp. reflexivity.
Qed.

(** X13: whatever the body and the outcome, a PUT on [id] leaves every
    other game, the publisher table and the category table as they were,
    neither creates nor removes the game of [id], and unless it answers
    200 leaves the whole database as it was. *)
Theorem update_game_frame (db : Database) (id : Z) (data : json) :
  (forall id', id' <> id ->
     games (serve (update_game id data) db).2 !! id' = games db !! id') /\
  (is_Some (games (serve (update_game id data) db).2 !! id) <->
   is_Some (games db !! id)) /\
  publishers (serve (update_game id data) db).2 = publishers db /\
  categories (serve (update_game id data) db).2 = categories db /\
  ((forall r, (serve (update_game id data) db).1 = Ok r -> status r <> 200) ->
   (serve (update_game id data) db).2 = db).
Proof.
  unfold serve.
  destruct (games db !! id) as [g|] eqn:Hg.
  - destruct (update_game_cases db id g data Hg)
      as [(s' & E & Hs & _)|[(resp & s' & E & Hs & _)|(E & _)]]; rewrite E;
      cbn [fst snd begin stored]; try (rewrite Hs; done).
    split; [|split; [|split; [reflexivity|split; [reflexivity|]]]].
    + intros id' Hne. unfold with_game. cbn [set_games games].
      apply lookup_insert_ne. congruence.
    + unfold with_game. cbn [set_games games]. rewrite lookup_insert_eq.
      split; eauto.
    + intros Hno. exfalso. eapply Hno; reflexivity.
  - rewrite (update_game_absent db id data Hg). cbn [fst snd begin stored].
    repeat split; rewrite ?Hg; auto.
Qed.

(** ** Exceptions *)

(** X14: a truthy body that is not iterable (a non-zero number, [true])
    makes the membership test raise a [TypeError] that no handler catches:
    POST, and PUT on an existing game, end with that exception and write
    nothing. *)
Theorem scalar_body_type_error (db : Database) (id : Z) (data : json) :
  (data = JBool true \/ exists n, n <> 0 /\ data = JInt n) ->
  serve (create_game data) db = (Raise TypeError, db) /\
  (is_Some (games db !! id) ->
   serve (update_game id data) db = (Raise TypeError, db)).
Proof.
  intros Hdata.
  assert (truthy data = true /\ forall key, contains key data = Raise TypeError)
    as [Htruthy Hcontains].
  { destruct Hdata as [->|(n & Hn & ->)]; [split; reflexivity|].
    split; [|reflexivity]. cbn [truthy].
    destruct (Z.eqb_spec n 0); [contradiction|reflexivity]. }
  split.
  - unfold serve, create_game. rewrite Htruthy. cbn [negb].
    unfold bind, lift, required_fields. cbn [missing_in].
    rewrite Hcontains. reflexivity.
  - intros [g Hg].
    unfold serve, update_game, bind at 1, query. rewrite first_by_id.
    cbn [begin working]. rewrite Hg. cbn [fmap option_fmap option_map].
    rewrite Htruthy. cbn [negb].
    unfold reference_ok, bind, lift. rewrite Hcontains. reflexivity.
Qed.

(** ** Deleting, again *)

(** X16: when the commit of a DELETE on an existing game raises an
    integrity error, the handler rolls back and answers 400 with
    [{"error": "Database integrity error"}]; the game is still stored. *)
Theorem delete_game_integrity_error (db : Database) (id : Z) (g : Game) :
  games db !! id = Some g ->
  integrity_ok db (without id db) = false ->
  delete_game id (begin db) =
  (Ok (mkResponse (JObj {[ "error" := JStr "Database integrity error" ]}) 400),
   begin db).
Proof.
  intros Hg Hcommit. rewrite delete_game_run. cbn [begin working stored].
  rewrite Hg, Hcommit. reflexivity.
Qed.

(** X17: a DELETE on [id] always answers, with 204, 400 or 404; it leaves
    every other game and the publisher and category tables as they were,
    and unless it answers 204 leaves the whole database as it was. *)
Theorem delete_game_frame (db : Database) (id : Z) :
  exists r db',
    serve (delete_game id) db = (Ok r, db') /\
    (status r = 204 \/ status r = 400 \/ status r = 404) /\
    (forall id', id' <> id -> games db' !! id' = games db !! id') /\
    publishers db' = publishers db /\
    categories db' = categories db /\
    (status r <> 204 -> db' = db).
Proof.
  unfold serve. rewrite delete_game_run. cbn [begin working stored].
  destruct (games db !! id) as [g|].
  - destruct (integrity_ok _ _).
    + eexists _, _. split; [reflexivity|]. cbn [status stored].
      split; [auto|]. split; [|done].
      intros id' Hne. unfold without. cbn [set_games games].
      apply lookup_delete_ne. congruence.
    + eexists _, _. split; [reflexivity|]. cbn [status stored]. auto 6.
  - eexists _, _. split; [reflexivity|]. cbn [status stored]. auto 6.
Qed.

(** X18: a DELETE answered 204 is not repeatable: a second DELETE of the
    same id answers 404 and changes nothing. *)
Theorem delete_twice_404 (db db' : Database) (id : Z) (r : Response) :
  serve (delete_game id) db = (Ok r, db') ->
  status r = 204 ->
  serve (delete_game id) db' =
  (Ok (mkResponse (JObj {[ "error" := JStr "Game not found" ]}) 404), db').
Proof.
  unfold serve. rewrite !delete_game_run. cbn [begin working stored].
  destruct (games db !! id) as [g|].
  - destruct (integrity_ok _ _); intros [= <- <-]; cbn [status];
      [intros _|discriminate].
    unfold without at 1. cbn [set_games games]. rewrite lookup_delete_eq.
    reflexivity.
  - intros [= <- <-]. cbn [status]. discriminate.
Qed.

End MoreProperties.

(** ** The further properties on the sample database *)

Lemma create_game_unknown_publisher_witness :
  serve (create_game (models := sample_models)
           (JObj (<[ "publisher_id" := JInt 9 ]> sample_fields))) sample_db =
  (Ok (mkResponse (JObj {[ "error" := JStr "Publisher not found" ]}) 400), sample_db).
Proof.
  apply (create_game_unknown_publisher (models := sample_models) sample_db
           (<[ "publisher_id" := JInt 9 ]> sample_fields)
           (JStr "Agile Adventures") (JStr "Navigate your team through sprints")
           (JInt 1) (JInt 9)).
  - vm_compute. reflexivity.
  - vm_compute. reflexivity.
  - vm_compute. reflexivity.
  - vm_compute. reflexivity.
  - exists 1, "Strategy". split; vm_compute; reflexivity.
  - intros (id & name & [= <-] & Hrow). vm_compute in Hrow. discriminate.
Defined.

Lemma sample_create_served :
  serve (create_game (models := sample_models) sample_body) sample_db =
  (Ok (mkResponse (serialize (with_game 2 sample_created sample_db)
                     (2, sample_created)) 201),
   with_game 2 sample_created sample_db).
Proof. vm_compute. reflexivity. Qed.

Lemma create_game_201_only_witness :
  exists m t d c p,
    sample_body = JObj m /\
    m !! "title" = Some t /\ m !! "description" = Some d /\
    m !! "category_id" = Some c /\ m !! "publisher_id" = Some p /\
    references (categories sample_db) c /\ references (publishers sample_db) p /\
    with_game 2 sample_created sample_db =
    with_game (fresh_id (games sample_db))
      (mkGame t d c p (default JNull (m !! "star_rating"))) sample_db.
Proof.
  apply (create_game_201_only (models := sample_models) sample_db _ sample_body _
           sample_create_served).
  reflexivity.
Defined.

Lemma create_game_frame_witness :
  games (serve (create_game (models := sample_models) sample_body) sample_db).2 !! 1 =
  Some sample_game /\
  (serve (create_game (models := sample_models) (JObj ∅)) sample_db).2 = sample_db.
Proof.
  split.
  - apply (proj1 (create_game_frame (models := sample_models) sample_db sample_body)).
    vm_compute. reflexivity.
  - apply (proj2 (proj2 (proj2
             (create_game_frame (models := sample_models) sample_db (JObj ∅))))).
    intros r Hr. vm_compute in Hr. injection Hr as <-. cbn [status]. discriminate.
Defined.

Lemma create_then_get_witness :
  exists (id : Z) (created : gmap string json),
    serialize (with_game 2 sample_created sample_db) (2, sample_created) =
    JObj created /\
    created !! "id" = Some (JInt id) /\
    games sample_db !! id = None /\
    serve (get_game id) (with_game 2 sample_created sample_db) =
    (Ok (mkResponse
           (serialize (with_game 2 sample_created sample_db) (2, sample_created))
           200),
     with_game 2 sample_created sample_db).
Proof.
  apply (create_then_get (models := sample_models) sample_db _ sample_body
           (mkResponse (serialize (with_game 2 sample_created sample_db)
                          (2, sample_created)) 201)
           sample_create_served).
  reflexivity.
Defined.

Lemma update_game_not_found_witness :
  serve (update_game (models := sample_models) 3 sample_body) sample_db =
  (Ok (mkResponse (JObj {[ "error" := JStr "Game not found" ]}) 404), sample_db).
Proof.
  apply (update_game_not_found (models := sample_models) sample_db 3 sample_body).
  vm_compute. reflexivity.
Defined.

Lemma update_game_unknown_category_witness :
  serve (update_game (models := sample_models) 1
           (JObj {[ "title" := JStr "Renamed"; "category_id" := JInt 9 ]})) sample_db =
  (Ok (mkResponse (JObj {[ "error" := JStr "Category not found" ]}) 400), sample_db).
Proof.
  apply (update_game_unknown_category (models := sample_models) sample_db 1
           {[ "title" := JStr "Renamed"; "category_id" := JInt 9 ]} (JInt 9)).
  - exists sample_game. vm_compute. reflexivity.
  - vm_compute. reflexivity.
  - intros (id & name & [= <-] & Hrow). vm_compute in Hrow. discriminate.
Defined.

Lemma update_game_unknown_publisher_400_witness :
  serve (update_game (models := sample_models) 1
           (JObj {[ "category_id" := JInt 1; "publisher_id" := JInt 9 ]})) sample_db =
  (Ok (mkResponse (JObj {[ "error" := JStr "Publisher not found" ]}) 400), sample_db).
Proof.
  apply (update_game_unknown_publisher_400 (models := sample_models) sample_db 1
           {[ "category_id" := JInt 1; "publisher_id" := JInt 9 ]} (JInt 9)).
  - exists sample_game. vm_compute. reflexivity.
  - vm_compute. reflexivity.
  - intros c Hc. vm_compute in Hc. injection Hc as <-.
    exists 1, "Strategy". split; vm_compute; reflexivity.
  - intros (id & name & [= <-] & Hrow). vm_compute in Hrow. discriminate.
Defined.

Lemma sample_update_served :
  serve (update_game (models := sample_models) 1
           (JObj {[ "title" := JStr "Renamed"; "star_rating" := JInt 5 ]})) sample_db =
  (Ok (mkResponse
         (serialize
            (with_game 1 (set_field StarRating (JInt 5)
                            (set_field Title (JStr "Renamed") sample_game)) sample_db)
            (1, set_field StarRating (JInt 5)
                  (set_field Title (JStr "Renamed") sample_game))) 200),
   with_game 1 (set_field StarRating (JInt 5)
                  (set_field Title (JStr "Renamed") sample_game)) sample_db).
Proof. vm_compute. reflexivity. Qed.

Lemma update_game_200_witness :
  exists g',
    with_game 1 (set_field StarRating (JInt 5)
                   (set_field Title (JStr "Renamed") sample_game)) sample_db =
    with_game 1 g' sample_db /\
    title g' = JStr "Renamed" /\
    description g' = description sample_game /\
    category_id g' = category_id sample_game /\
    publisher_id g' = publisher_id sample_game /\
    star_rating g' = JInt 5.
Proof.
  destruct (update_game_200 (models := sample_models) sample_db _ 1 sample_game
              (JObj {[ "title" := JStr "Renamed"; "star_rating" := JInt 5 ]}) _
              ltac:(vm_compute; reflexivity) sample_update_served eq_refl)
    as (g' & Hdb & _ & Ht & Hd & Hc & Hp & Hr).
  exists g'. vm_compute in Ht, Hd, Hc, Hp, Hr. vm_compute. done.
Defined.

Lemma update_then_get_witness :
  serve (get_game 1)
        (with_game 1 (set_field StarRating (JInt 5)
                        (set_field Title (JStr "Renamed") sample_game)) sample_db) =
  (Ok (mkResponse
         (serialize
            (with_game 1 (set_field StarRating (JInt 5)
                            (set_field Title (JStr "Renamed") sample_game)) sample_db)
            (1, set_field StarRating (JInt 5)
                  (set_field Title (JStr "Renamed") sample_game))) 200),
   with_game 1 (set_field StarRating (JInt 5)
                  (set_field Title (JStr "Renamed") sample_game)) sample_db).
Proof.
  apply (update_then_get (models := sample_models) sample_db _ 1
           (JObj {[ "title" := JStr "Renamed"; "star_rating" := JInt 5 ]})
           _ sample_update_served).
  reflexivity.
Defined.

Lemma update_game_no_field_witness :
  serve (update_game (models := sample_models) 1 (JStr "hello")) sample_db =
  (Ok (mkResponse (serialize sample_db (1, sample_game)) 200), sample_db).
Proof.
  apply (update_game_no_field (models := sample_models) sample_db 1 sample_game
           (JStr "hello")); vm_compute; reflexivity.
Defined.

Lemma update_game_frame_witness :
  (serve (update_game (models := sample_models) 1 (JObj ∅)) sample_db).2 = sample_db.
Proof.
  apply (proj2 (proj2 (proj2 (proj2
           (update_game_frame (models := sample_models) sample_db 1 (JObj ∅)))))).
  intros r Hr. vm_compute in Hr. injection Hr as <-. cbn [status]. discriminate.
Defined.

Lemma scalar_body_type_error_witness :
  serve (create_game (models := sample_models) (JInt 7)) sample_db =
  (Raise TypeError, sample_db) /\
  serve (update_game (models := sample_models) 1 (JInt 7)) sample_db =
  (Raise TypeError, sample_db).
Proof.
  destruct (scalar_body_type_error (models := sample_models) sample_db 1 (JInt 7))
    as [Hcreate Hupdate].
  - right. exists 7. split; [lia|reflexivity].
  - split; [exact Hcreate|]. apply Hupdate. exists sample_game.
    vm_compute. reflexivity.
Defined.

Lemma delete_game_integrity_error_witness :
  delete_game (models := referenced_models) 1 (begin sample_db) =
  (Ok (mkResponse (JObj {[ "error" := JStr "Database integrity error" ]}) 400),
   begin sample_db).
Proof.
  apply (delete_game_integrity_error (models := referenced_models) sample_db 1
           sample_game); vm_compute; reflexivity.
Defined.

Lemma delete_game_frame_witness :
  exists r db',
    serve (delete_game (models := referenced_models) 1) sample_db = (Ok r, db') /\
    db' = sample_db.
Proof.
  destruct (delete_game_frame (models := referenced_models) sample_db 1)
    as (r & db' & E & _ & _ & _ & _ & Hsame).
  exists r, db'. split; [exact E|]. apply Hsame.
  assert (serve (delete_game (models := referenced_models) 1) sample_db =
          (Ok (mkResponse (error "Database integrity error") 400), sample_db)) as Hrun
    by (vm_compute; reflexivity).
  rewrite Hrun in E. injection E as <- _. cbn [status]. discriminate.
Defined.

Lemma delete_twice_404_witness :
  serve (delete_game (models := sample_models) 1) (without 1 sample_db) =
  (Ok (mkResponse (JObj {[ "error" := JStr "Game not found" ]}) 404),
   without 1 sample_db).
Proof.
  apply (delete_twice_404 (models := sample_models) sample_db (without 1 sample_db) 1
           (mkResponse (JObj ∅) 204)).
  - vm_compute. reflexivity.
  - reflexivity.
Defined.
